(** * Orchestrator Chat (streamlit_app.py): conversation state and
      orchestrator contract

    A shallow embedding of the Streamlit script.  The script is re-run from
    the top on every user action; what survives between runs is
    [st.session_state].  Each handler of the script is a function on that
    state.  Decoded JSON bodies are Python objects, so the embedding starts
    with the fragment of Python values, truthiness and builtins the script
    uses. *)

From Stdlib Require Import ZArith Bool List String Ascii Lia.
From Stdlib Require Import DecimalString DecimalZ.
From Stdlib Require Import PrimFloat SpecFloat FloatOps.
Import ListNotations.

Set Warnings "-inexact-float,-register-all".

Open Scope string_scope.
Open Scope Z_scope.

(** ** Python values *)

(** What [json.loads] / [response.json()] can produce, which is also what the
    script stores in its dicts.  A [dict] keeps its keys in insertion order
    ([results.items()] iterates in that order), hence an association list;
    the decoder never yields two bindings for one key and [lookup] reads
    the first one.  Strings are sequences of [ascii] characters, one per
    code point. *)
Inductive pyval : Type :=
| PyNone
| PyBool (b : bool)
| PyInt (n : Z)
| PyFloat (x : float)
| PyStr (s : string)
| PyList (l : list pyval)
| PyDict (d : list (string * pyval)).

Definition dict : Type := list (string * pyval).

(** The exceptions the modelled fragment can raise. *)
Inductive exn : Type :=
| AttributeError
| TypeError
| ValueError
| OverflowError
| KeyError.

(** [bool(v)]: the test of [if v:], [not v] and [a or b]. *)
Definition truthy (v : pyval) : bool :=
  match v with
  | PyNone => false
  | PyBool b => b
  | PyInt n => negb (n =? 0)
  | PyFloat x => negb (PrimFloat.eqb x 0%float)
  | PyStr s => negb (String.eqb s "")
  | PyList l => match l with [] => false | _ :: _ => true end
  | PyDict d => match d with [] => false | _ :: _ => true end
  end.

(** [a or b]. *)
Definition py_or (a b : pyval) : pyval := if truthy a then a else b.

(** [v == s] for a string literal [s]. *)
Definition py_eq_str (v : pyval) (s : string) : bool :=
  match v with
  | PyStr t => String.eqb t s
  | _ => false
  end.

Fixpoint lookup (k : string) (d : dict) : option pyval :=
  match d with
  | [] => None
  | (k', v) :: d' => if String.eqb k k' then Some v else lookup k d'
  end.

(** [d.get(k, default)] on a dict. *)
Definition get (d : dict) (k : string) (default : pyval) : pyval :=
  match lookup k d with
  | Some v => v
  | None => default
  end.

(** [v.get(k, default)] on any value: only a dict has the method. *)
Definition py_get (v : pyval) (k : string) (default : pyval) : exn + pyval :=
  match v with
  | PyDict d => inr (get d k default)
  | _ => inl AttributeError
  end.

(** [v[k]] with a string key. *)
Definition py_getitem (v : pyval) (k : string) : exn + pyval :=
  match v with
  | PyDict d => match lookup k d with Some x => inr x | None => inl KeyError end
  | _ => inl TypeError
  end.

(** [v.items()]. *)
Definition py_items (v : pyval) : exn + list (string * pyval) :=
  match v with
  | PyDict d => inr d
  | _ => inl AttributeError
  end.

Definition chars (s : string) : list pyval :=
  map (fun c => PyStr (String c EmptyString)) (list_ascii_of_string s).

(** The items a [for] loop (here through [enumerate]) draws from a value. *)
Definition py_iter (v : pyval) : exn + list pyval :=
  match v with
  | PyList l => inr l
  | PyStr s => inr (chars s)
  | PyDict d => inr (map (fun kv => PyStr (fst kv)) d)
  | _ => inl TypeError
  end.

(** [len(v)]. *)
Definition py_len (v : pyval) : exn + Z :=
  match v with
  | PyList l => inr (Z.of_nat (List.length l))
  | PyStr s => inr (Z.of_nat (String.length s))
  | PyDict d => inr (Z.of_nat (List.length d))
  | _ => inl TypeError
  end.

(** [enumerate(l, start)]. *)
Fixpoint enumerate {A : Type} (start : Z) (l : list A) : list (Z * A) :=
  match l with
  | [] => []
  | x :: l' => (start, x) :: enumerate (start + 1) l'
  end.

(** [str(n)] for an int: decimal digits, a leading [-] when negative. *)
Definition py_str_int (n : Z) : string := NilEmpty.string_of_int (Z.to_int n).

(** [int(x)] for a float: truncation toward zero of the exact binary64
    value [(-1)^s * m * 2^e]; infinities raise [OverflowError], NaN raises
    [ValueError]. *)
Definition py_int_of_float (x : float) : exn + Z :=
  match Prim2SF x with
  | S754_zero _ => inr 0
  | S754_finite s m e =>
      let a := if 0 <=? e then Z.pos m * 2 ^ e else Z.pos m / 2 ^ (- e) in
      inr (if s then - a else a)
  | S754_infinity _ => inl OverflowError
  | S754_nan => inl ValueError
  end.

Fixpoint repeat_string (s : string) (n : nat) : string :=
  match n with
  | O => ""
  | S n' => s ++ repeat_string s n'
  end.

Fixpoint repeat_list {A : Type} (l : list A) (n : nat) : list A :=
  match n with
  | O => []
  | S n' => l ++ repeat_list l n'
  end.

(** [v * 100]: numeric product for numbers (an int operand is converted to
    the float [100.0] when [v] is a float), repetition for sequences. *)
Definition py_mul_100 (v : pyval) : exn + pyval :=
  match v with
  | PyInt n => inr (PyInt (n * 100))
  | PyBool b => inr (PyInt ((if b then 1 else 0) * 100))
  | PyFloat x => inr (PyFloat (x * 100)%float)
  | PyStr s => inr (PyStr (repeat_string s 100))
  | PyList l => inr (PyList (repeat_list l 100))
  | PyNone | PyDict _ => inl TypeError
  end.

(** Builtins of the interpreter and of its [json] module that the script
    calls and that are not part of the repository. *)
Class Runtime : Type := {
  (** [json.loads(s)]; [None] when it raises. *)
  json_loads : string -> option pyval;
  (** [int(s)] for a string; [None] when it raises [ValueError]. *)
  int_of_str : string -> option Z;
  (** [format(v, "")] for floats, lists and dicts (their [repr]). *)
  repr_other : pyval -> string
}.

(** [int(v)]. *)
Definition py_int `{Runtime} (v : pyval) : exn + Z :=
  match v with
  | PyInt n => inr n
  | PyBool b => inr (if b then 1 else 0)
  | PyFloat x => py_int_of_float x
  | PyStr s => match int_of_str s with Some n => inr n | None => inl ValueError end
  | PyNone | PyList _ | PyDict _ => inl TypeError
  end.

(** The text an f-string substitutes for [{v}]. *)
Definition py_format `{Runtime} (v : pyval) : string :=
  match v with
  | PyStr s => s
  | PyInt n => py_str_int n
  | PyNone => "None"
  | PyBool true => "True"
  | PyBool false => "False"
  | PyFloat _ | PyList _ | PyDict _ => repr_other v
  end.

(** ** Streamlit calls *)

(** The display calls of a script run, logged in call order.  Containers
    ([with st.sidebar:], [with col1:], [with tab1:], [with st.spinner(...)])
    only place what is drawn inside them and are not logged. *)
Inductive widget : Type :=
| st_error (body : string)
| st_success (body : string)
| st_info (body : string)
| st_subheader (body : string)
| st_markdown (body : pyval)
| st_write (arg : pyval)
| st_json (body : pyval)
| st_metric (label : string) (value : pyval)
| st_columns (spec : Z)
| st_tabs (names : list string)
| st_divider.

(** A piece of display code: the calls it made, and either its value or
    the exception that stopped it. *)
Definition ui (A : Type) : Type := (list widget * (exn + A))%type.

Definition ret {A : Type} (a : A) : ui A := ([], inr a).

Definition lift {A : Type} (r : exn + A) : ui A := ([], r).

Definition emit (w : widget) : ui unit := ([w], inr tt).

Definition bind {A B : Type} (m : ui A) (k : A -> ui B) : ui B :=
  match m with
  | (out, inl e) => (out, inl e)
  | (out, inr a) => let (out', r) := k a in ((out ++ out')%list, r)
  end.

Declare Scope ui_scope.
Delimit Scope ui_scope with ui.
Notation "x <- m ;; k" := (bind m (fun x => k))
  (at level 61, m at next level, right associativity) : ui_scope.
Notation "m ;; k" := (bind m (fun _ => k))
  (at level 61, right associativity) : ui_scope.

(** [for x in l: body]. *)
Fixpoint for_each {A : Type} (l : list A) (body : A -> ui unit) : ui unit :=
  match l with
  | [] => ret tt
  | x :: l' => bind (body x) (fun _ => for_each l' body)
  end.

(** The calls a piece of display code made. *)
Definition calls {A : Type} (m : ui A) : list widget := fst m.

(** ** Session state (lines 62-72) *)

Record session_state : Type := {
  messages : list pyval;
  thread_id : string;
  task_plans : list pyval;
  execution_history : list pyval
}.

(** The token [f"thread_{int(time.time())}"], [now] being the clock reading
    in seconds as a float. *)
Definition thread_token (now : float) : exn + string :=
  match py_int_of_float now with
  | inr n => inr ("thread_" ++ py_str_int n)
  | inl e => inl e
  end.

(** First run of a session: every key is missing and gets its initial
    value. *)
Definition init_session (now : float) : exn + session_state :=
  match thread_token now with
  | inr t =>
      inr {| messages := []; thread_id := t;
             task_plans := []; execution_history := [] |}
  | inl e => inl e
  end.

(** ** Orchestrator client (lines 78-98) *)

Record post_request : Type := {
  url : string;
  json : pyval;
  timeout : Z
}.

(** What [response.json()] does with the body. *)
Inductive json_body : Type :=
| BodyJson (v : pyval)
| BodyInvalid (msg : string).

(** What [requests.post] does: raise [requests.exceptions.ConnectionError],
    raise anything else (a timeout for instance; [msg] is [str(e)]), or
    return a response. *)
Inductive post_outcome : Type :=
| ConnectionError
| OtherException (msg : string)
| Response (status_code : Z) (body : json_body).

(** The network seen from the client. *)
Definition network : Type := post_request -> post_outcome.

Definition orchestrate_request (API_BASE_URL query thread_id : string)
  : post_request :=
  {| url := API_BASE_URL ++ "/orchestrate";
     json := PyDict [("query", PyStr query); ("thread_id", PyStr thread_id)];
     timeout := 120 |}.

(** Returns the value of the call ([PyNone] for Python's [None]) and the
    [st.error] calls it made. *)
Definition call_orchestrator (API_BASE_URL : string) (post : network)
  (query thread_id : string) : pyval * list widget :=
  match post (orchestrate_request API_BASE_URL query thread_id) with
  | Response status_code body =>
      if status_code =? 200 then
        match body with
        | BodyJson v => (v, [])
        | BodyInvalid msg => (PyNone, [st_error ("Error: " ++ msg)])
        end
      else (PyNone, [st_error ("API Error: " ++ py_str_int status_code)])
  | ConnectionError =>
      (PyNone, [st_error ("Cannot connect to orchestrator at " ++ API_BASE_URL)])
  | OtherException msg => (PyNone, [st_error ("Error: " ++ msg)])
  end.

(** ** Sidebar handlers *)

(** How a handler ends: it falls through to the rest of the script, calls
    [st.rerun()], or is stopped by an exception. *)
Inductive completion : Type :=
| Finished
| Rerun
| Raised (e : exn).

Record run : Type := {
  state : session_state;
  output : list widget;
  ending : completion
}.

(** "New Thread" (lines 188-193). *)
Definition new_thread (now : float) (st : session_state) : run :=
  match thread_token now with
  | inr t =>
      {| state := {| messages := []; thread_id := t;
                     task_plans := []; execution_history := [] |};
         output := []; ending := Rerun |}
  | inl e => {| state := st; output := []; ending := Raised e |}
  end.

(** "Clear History" (lines 222-224). *)
Definition clear_history (st : session_state) : run :=
  {| state := {| messages := []; thread_id := thread_id st;
                 task_plans := task_plans st;
                 execution_history := execution_history st |};
     output := []; ending := Rerun |}.

(** ** Input handler (lines 318-364) *)

Definition user_turn (user_input timestamp : string) : pyval :=
  PyDict [("type", PyStr "user");
          ("content", PyStr user_input);
          ("timestamp", PyStr timestamp)].

(** Lines 334-340.  [Some v]: the [try] body ran to its end, [v] was bound
    to [task_plan] and appended to [task_plans].  [None]: the field was
    falsy, or the bare [except] caught the decoder's exception; [task_plan]
    is Python's [None] and nothing was appended. *)
Definition decode_task_plan `{Runtime} (result : dict) : option pyval :=
  if truthy (get result "task_plan" PyNone) then
    match lookup "task_plan" result with
    | Some (PyStr s) => json_loads s
    | Some v => Some v
    | None => None
    end
  else None.

Definition assistant_turn (result : dict) (task_plan : pyval)
  (timestamp : string) : pyval :=
  PyDict [("type", PyStr "assistant");
          ("content", py_or (get result "error" PyNone)
                            (PyStr "Task completed successfully"));
          ("status", get result "status" (PyStr "pending"));
          ("task_plan", task_plan);
          ("execution_order", get result "execution_order" PyNone);
          ("results", get result "results" PyNone);
          ("error", get result "error" PyNone);
          ("timestamp", PyStr timestamp)].

Definition history_entry (result : dict)
  (user_input thread_id timestamp : string) : pyval :=
  PyDict [("query", PyStr user_input);
          ("thread_id", PyStr thread_id);
          ("timestamp", PyStr timestamp);
          ("status", get result "status" PyNone);
          ("agents", get result "execution_order" (PyList []))].

(** [now_user] and [now_reply] are the two readings of
    [datetime.now().strftime("%H:%M:%S")].  The plan stored in the turn and
    the one appended to [task_plans] are one object, as are the turn's
    [execution_order] and the entry's [agents]; nothing mutates them
    afterwards, so they are modelled by value.  A truthy body that is not a
    dict has no [get]: the handler stops at line 335 with the user turn
    already appended. *)
Definition process_input `{Runtime} (API_BASE_URL : string) (post : network)
  (submit_button : bool) (user_input now_user now_reply : string)
  (st : session_state) : run :=
  if submit_button && truthy (PyStr user_input) then
    let st1 := {| messages := (messages st ++ [user_turn user_input now_user])%list;
                  thread_id := thread_id st;
                  task_plans := task_plans st;
                  execution_history := execution_history st |} in
    let (result, errors) :=
      call_orchestrator API_BASE_URL post user_input (thread_id st1) in
    if truthy result then
      match result with
      | PyDict d =>
          let plan := decode_task_plan d in
          let task_plan := match plan with Some v => v | None => PyNone end in
          {| state :=
               {| messages :=
                    (messages st1 ++ [assistant_turn d task_plan now_reply])%list;
                  thread_id := thread_id st1;
                  task_plans :=
                    match plan with
                    | Some v => (task_plans st1 ++ [v])%list
                    | None => task_plans st1
                    end;
                  execution_history :=
                    (execution_history st1 ++
                     [history_entry d user_input (thread_id st1) now_reply])%list |};
             output := errors; ending := Rerun |}
      | _ => {| state := st1; output := errors; ending := Raised AttributeError |}
      end
    else {| state := st1; output := errors; ending := Rerun |}
  else {| state := st; output := []; ending := Finished |}.

(** ** Script runs *)

(** One press of "Send": what the widgets and the outside world supply to
    that run of the script.  [api_url] is the content of the sidebar's URL
    box, which lines 173-179 make the [API_BASE_URL] of the run. *)
Record submission : Type := {
  api_url : string;
  user_input : string;
  now_user : string;
  now_reply : string;
  post : network
}.

Definition submit `{Runtime} (st : session_state) (s : submission) : run :=
  process_input (api_url s) (post s) true (user_input s)
    (now_user s) (now_reply s) st.

(** What the orchestrator call of this submission meets. *)
Definition outcome (st : session_state) (s : submission) : post_outcome :=
  post s (orchestrate_request (api_url s) (user_input s) (thread_id st)).

Definition run_submissions `{Runtime} (st : session_state)
  (l : list submission) : session_state :=
  fold_left (fun st s => state (submit st s)) l st.

(** ** Display (lines 101-162 and 240-294) *)

Section Display.
Context `{Runtime}.
Local Open Scope ui_scope.

(** Lines 112-114: the "Confidence" metric of a plan. *)
Definition display_confidence (plan : pyval) : ui unit :=
  confidence <- lift (py_get plan "confidence" (PyInt 0)) ;;
  scaled <- lift (py_mul_100 confidence) ;;
  percent <- lift (py_int scaled) ;;
  emit (st_metric "Confidence" (PyStr (py_str_int percent ++ "%"))).

Definition display_task_plan (plan : pyval) : ui unit :=
  if negb (truthy plan) then ret tt
  else
    emit (st_columns 3) ;;
    agents <- lift (py_get plan "agents" (PyList [])) ;;
    n <- lift (py_len agents) ;;
    emit (st_metric "Agents" (PyInt n)) ;;
    display_confidence plan ;;
    uncertain <- lift (py_get plan "uncertain" (PyBool false)) ;;
    emit (st_metric "Status"
            (PyStr (if truthy uncertain then "Uncertain" else "Confident"))) ;;
    emit (st_write (PyStr "**Reasoning:**")) ;;
    reasoning <- lift (py_get plan "reasoning" (PyStr "N/A")) ;;
    emit (st_write reasoning) ;;
    emit (st_write (PyStr "**Execution Order:**")) ;;
    agents <- lift (py_get plan "agents" (PyList [])) ;;
    items <- lift (py_iter agents) ;;
    for_each (enumerate 1 items)
      (fun ia => emit (st_write (PyStr ("  " ++ py_str_int (fst ia) ++ ". "
                                          ++ py_format (snd ia))))).

Definition display_agent_result (agent_name : string) (result : pyval)
  : ui unit :=
  emit (st_subheader ("Agent: " ++ agent_name)) ;;
  error <- lift (py_get result "error" PyNone) ;;
  (if truthy error then
     e <- lift (py_getitem result "error") ;;
     emit (st_error ("Error: " ++ py_format e))
   else emit (st_success "Success")) ;;
  response <- lift (py_get result "response" PyNone) ;;
  (if truthy response then
     response <- lift (py_getitem result "response") ;;
     emit (st_write (PyStr "**Response:**")) ;;
     match response with
     | PyStr s =>
         match json_loads s with
         | Some json_data => emit (st_json json_data)
         | None => emit (st_markdown response)
         end
     | _ => emit (st_json response)
     end
   else ret tt) ;;
  metadata <- lift (py_get result "metadata" PyNone) ;;
  (if truthy metadata then
     emit (st_write (PyStr "**Metadata:**")) ;;
     m <- lift (py_getitem result "metadata") ;;
     emit (st_json m)
   else ret tt) ;;
  emit st_divider.

(** Lines 251-257: the status banner of an assistant turn. *)
Definition display_status (msg : pyval) : ui unit :=
  status <- lift (py_get msg "status" (PyStr "pending")) ;;
  if py_eq_str status "complete" then emit (st_success "Status: Completed")
  else if py_eq_str status "error" then emit (st_error "Status: Error")
  else emit (st_info "Status: Processing").

(** Lines 272-277: the "Order" tab of an assistant turn. *)
Definition display_order (msg : pyval) : ui unit :=
  order <- lift (py_get msg "execution_order" PyNone) ;;
  if truthy order then
    emit (st_write (PyStr "**Agents will execute in this order:**")) ;;
    order <- lift (py_getitem msg "execution_order") ;;
    items <- lift (py_iter order) ;;
    for_each (enumerate 1 items)
      (fun ia => emit (st_write (PyStr (py_str_int (fst ia) ++ ". "
                                          ++ py_format (snd ia)))))
  else emit (st_write (PyStr "No execution order available")).

(** Lines 242-294: one turn of the transcript. *)
Definition display_message (msg : pyval) : ui unit :=
  type <- lift (py_getitem msg "type") ;;
  if py_eq_str type "user" then
    timestamp <- lift (py_get msg "timestamp" (PyStr "")) ;;
    emit (st_markdown (PyStr ("**You** (" ++ py_format timestamp ++ ")"))) ;;
    content <- lift (py_getitem msg "content") ;;
    emit (st_markdown (PyStr ("> " ++ py_format content))) ;;
    emit st_divider
  else
    type <- lift (py_getitem msg "type") ;;
    if py_eq_str type "assistant" then
      timestamp <- lift (py_get msg "timestamp" (PyStr "")) ;;
      emit (st_markdown (PyStr ("**Orchestrator** (" ++ py_format timestamp ++ ")"))) ;;
      display_status msg ;;
      content <- lift (py_get msg "content" (PyStr "")) ;;
      emit (st_markdown content) ;;
      emit (st_tabs ["Plan"; "Order"; "Results"; "Error"]) ;;
      plan <- lift (py_get msg "task_plan" PyNone) ;;
      (if truthy plan then
         plan <- lift (py_getitem msg "task_plan") ;;
         display_task_plan plan
       else emit (st_write (PyStr "No task plan available"))) ;;
      display_order msg ;;
      results <- lift (py_get msg "results" PyNone) ;;
      (if truthy results then
         results <- lift (py_getitem msg "results") ;;
         items <- lift (py_items results) ;;
         for_each items (fun ar => display_agent_result (fst ar) (snd ar))
       else emit (st_write (PyStr "No results available"))) ;;
      error <- lift (py_get msg "error" PyNone) ;;
      (if truthy error then
         e <- lift (py_getitem msg "error") ;;
         emit (st_error ("Error occurred: " ++ py_format e))
       else emit (st_write (PyStr "No errors"))) ;;
      emit st_divider
    else ret tt.

(** Lines 241-294: the transcript. *)
Definition display_messages (st : session_state) : ui unit :=
  for_each (messages st) display_message.

End Display.

(** ** Vocabulary of the properties *)

(** The [type] of each turn of a transcript, in order. *)
Definition turn_types (l : list pyval) : list (exn + pyval) :=
  map (fun msg => py_getitem msg "type") l.

Definition user_type : exn + pyval := inr (PyStr "user").
Definition assistant_type : exn + pyval := inr (PyStr "assistant").

(** A submission the handler acts on: the text box is not empty. *)
Definition sent (s : submission) : bool := truthy (PyStr (user_input s)).

(** The call came back with an HTTP response, whatever its status. *)
Definition response_received (o : post_outcome) : bool :=
  match o with
  | Response _ _ => true
  | ConnectionError | OtherException _ => false
  end.

(** The call came back with status 200 and a body that decodes to a
    non-empty object. *)
Definition answered (o : post_outcome) : bool :=
  match o with
  | Response status_code (BodyJson (PyDict (_ :: _))) => status_code =? 200
  | _ => false
  end.

(** The call failed below HTTP, or came back with a status other than 200. *)
Definition call_failed (o : post_outcome) : bool :=
  match o with
  | Response status_code _ => negb (status_code =? 200)
  | ConnectionError | OtherException _ => true
  end.

(** ** Sample data *)

(** A runtime for the examples: a decoder for a few JSON literals, decimal
    [int], and no [repr]. *)
Definition sample_loads (s : string) : option pyval :=
  if String.eqb s "null" then Some PyNone
  else if String.eqb s "true" then Some (PyBool true)
  else if String.eqb s "false" then Some (PyBool false)
  else if String.eqb s "[]" then Some (PyList [])
  else if String.eqb s "{}" then Some (PyDict [])
  else None.

Definition sample_runtime : Runtime :=
  {| json_loads := sample_loads;
     int_of_str := fun s => option_map Z.of_int (NilEmpty.int_of_string s);
     repr_other := fun _ => "" |}.

(** The same runtime with a decoder that, like [json.loads], also takes
    the text NaN, which JSON does not have. *)
Definition sample_loads_nan (s : string) : option pyval :=
  if String.eqb s "NaN" then Some (PyFloat nan) else sample_loads s.

Definition sample_runtime_nan : Runtime :=
  {| json_loads := sample_loads_nan;
     int_of_str := fun s => option_map Z.of_int (NilEmpty.int_of_string s);
     repr_other := fun _ => "" |}.

Definition sample_session : session_state :=
  {| messages := []; thread_id := "thread_1700000000";
     task_plans := []; execution_history := [] |}.

(** A submission of [query] that the network answers with [o]. *)
Definition sample_submission (query : string) (o : post_outcome) : submission :=
  {| api_url := "http://localhost:9000"; user_input := query;
     now_user := "12:00:00"; now_reply := "12:00:01";
     post := fun _ => o |}.

(** ** Sessions *)

(** The user actions that change the session. *)
Inductive event : Type :=
| NewThread (now : float)
| ClearHistory
| Send (s : submission).

(** The session after the run of the script that handles [ev]. *)
Definition step `{Runtime} (st : session_state) (ev : event) : session_state :=
  match ev with
  | NewThread now => state (new_thread now st)
  | ClearHistory => state (clear_history st)
  | Send s => state (submit st s)
  end.

Definition run_events `{Runtime} (st : session_state) (l : list event)
  : session_state :=
  fold_left step l st.

Definition is_new_thread (ev : event) : bool :=
  match ev with
  | NewThread _ => true
  | ClearHistory | Send _ => false
  end.

Definition is_clear_history (ev : event) : bool :=
  match ev with
  | ClearHistory => true
  | NewThread _ | Send _ => false
  end.

(** The turn is an assistant turn. *)
Definition is_assistant (msg : pyval) : bool :=
  match py_getitem msg "type" with
  | inr t => py_eq_str t "assistant"
  | inl _ => false
  end.

(** Transcripts built by appending a lone user turn or a user turn with its
    reply. *)
Inductive dialogue : list (exn + pyval) -> Prop :=
| dialogue_nil : dialogue []
| dialogue_dangling (l : list (exn + pyval)) :
    dialogue l -> dialogue (l ++ [user_type])%list
| dialogue_answered (l : list (exn + pyval)) :
    dialogue l -> dialogue (l ++ [user_type; assistant_type])%list.

(** What the two histories say about the transcript. *)
Definition histories_refer_to_transcript (st : session_state) : Prop :=
  Forall (fun plan =>
            exists turn, In turn (messages st) /\ is_assistant turn = true /\
                         py_getitem turn "task_plan" = inr plan)
         (task_plans st) /\
  Forall (fun entry =>
            exists turn, In turn (messages st) /\
                         py_getitem turn "type" = user_type /\
                         py_getitem turn "content" = py_getitem entry "query")
         (execution_history st).

(** ** Sample sessions *)

(** A thread with an answered submission, a failed one, a press of "Clear
    History" and a submission answered with an error. *)
Definition sample_thread : list event :=
  [Send (sample_submission "ping"
           (Response 200 (BodyJson (PyDict
              [("status", PyStr "complete");
               ("task_plan", PyDict [("agents", PyList [PyStr "agentX"])])]))));
   Send (sample_submission "q" ConnectionError);
   ClearHistory;
   Send (sample_submission "again"
           (Response 200 (BodyJson (PyDict
              [("status", PyStr "error"); ("error", PyStr "agent failed")]))))].

(** The same, followed by a new thread, an empty submission and an answered
    one. *)
Definition sample_events : list event :=
  (sample_thread ++
   [NewThread 1700000060.5;
    Send (sample_submission "" ConnectionError);
    Send (sample_submission "hello"
            (Response 200 (BodyJson (PyDict
               [("execution_order", PyList [PyStr "A"])]))))])%list.

(** A thread of three submissions and no other press. *)
Definition sample_uncleared_thread : list event :=
  [Send (sample_submission "ping"
           (Response 200 (BodyJson (PyDict
              [("status", PyStr "complete");
               ("task_plan", PyDict [("agents", PyList [PyStr "agentX"])])]))));
   Send (sample_submission "q" ConnectionError);
   Send (sample_submission "again"
           (Response 200 (BodyJson (PyDict
              [("status", PyStr "error"); ("error", PyStr "agent failed")]))))].

(** An answer whose only agent result is a text instead of an object. *)
Definition sample_text_result : dict :=
  [("status", PyStr "complete");
   ("results", PyDict [("agentX", PyStr "pong")])].

(** ** Orchestrator URL (lines 56 and 173-179) *)

(** [os.getenv("ORCHESTRATOR_URL", "http://localhost:9000")]. *)
Definition env_base_url (ORCHESTRATOR_URL : option string) : string :=
  match ORCHESTRATOR_URL with
  | Some u => u
  | None => "http://localhost:9000"
  end.

(** The [API_BASE_URL] of a run: the environment's value unless the
    sidebar's box, which starts with that value, holds something else. *)
Definition sidebar_base_url (API_BASE_URL api_url : string) : string :=
  if negb (String.eqb api_url API_BASE_URL) then api_url else API_BASE_URL.

(** * Properties *)

Section Properties.
Context `{Runtime}.

(** ** The input handler, case by case *)

Lemma sent_true_iff (s : submission) : sent s = true <-> user_input s <> "".
Proof.
  unfold sent; simpl. rewrite negb_true_iff. apply String.eqb_neq.
Qed.

Lemma thread_id_submit (st : session_state) (s : submission) :
  thread_id (state (submit st s)) = thread_id st.
Proof.
  unfold submit, process_input; simpl.
  destruct (negb (user_input s =? "")%string); [|reflexivity].
  destruct (call_orchestrator _ _ _ _) as [result errors].
  destruct (truthy result); [|reflexivity].
  destruct result; reflexivity.
Qed.

(** The value [call_orchestrator] returns is truthy and has a [get] exactly
    when the call was [answered], and is then the decoded body. *)
Lemma call_orchestrator_answered (API_BASE_URL query tid : string) (post : network) :
  let o := post (orchestrate_request API_BASE_URL query tid) in
  let result := fst (call_orchestrator API_BASE_URL post query tid) in
  if answered o
  then exists d, o = Response 200 (BodyJson (PyDict d)) /\ d <> [] /\
                 result = PyDict d /\
                 snd (call_orchestrator API_BASE_URL post query tid) = []
  else truthy result = false \/ forall d, result <> PyDict d.
Proof.
  unfold call_orchestrator; cbv zeta.
  destruct (post _) as [ | msg | code body]; simpl; auto.
  destruct body as [v | msg]; simpl.
  - destruct v as [ | b | n | x | s | l | d];
      try (destruct (code =? 200); simpl; [right; discriminate | auto]).
    destruct d as [ | kv d].
    + destruct (code =? 200); simpl; auto.
    + destruct (code =? 200) eqn:E; simpl; auto.
      apply Z.eqb_eq in E; subst code.
      exists (kv :: d); repeat split; auto; discriminate.
  - destruct (code =? 200); simpl; auto.
Qed.

(** A submission that is not answered appends the user turn and nothing
    else. *)
Lemma submit_unanswered (st : session_state) (s : submission) :
  sent s = true -> answered (outcome st s) = false ->
  messages (state (submit st s))
    = (messages st ++ [user_turn (user_input s) (now_user s)])%list /\
  task_plans (state (submit st s)) = task_plans st /\
  execution_history (state (submit st s)) = execution_history st.
Proof.
  intros Hsent Hans.
  pose proof (call_orchestrator_answered (api_url s) (user_input s)
                (thread_id st) (post s)) as Hc.
  cbv zeta in Hc. unfold outcome in Hans. rewrite Hans in Hc.
  unfold submit, process_input. unfold sent in Hsent. rewrite Hsent; simpl.
  destruct (call_orchestrator _ _ _ _) as [result errors]; simpl in *.
  destruct Hc as [Hc | Hc].
  - rewrite Hc; simpl; auto.
  - destruct (truthy result); simpl; auto.
    destruct result; simpl; auto. exfalso; eapply Hc; reflexivity.
Qed.

(** A submission that is answered with the object [d] appends the user turn
    and the assistant turn built from [d], and ends in a rerun. *)
Lemma submit_answered (st : session_state) (s : submission) (d : dict) :
  sent s = true -> outcome st s = Response 200 (BodyJson (PyDict d)) -> d <> [] ->
  let plan := decode_task_plan d in
  let task_plan := match plan with Some v => v | None => PyNone end in
  submit st s =
    {| state :=
         {| messages :=
              (messages st ++ [user_turn (user_input s) (now_user s);
                               assistant_turn d task_plan (now_reply s)])%list;
            thread_id := thread_id st;
            task_plans :=
              match plan with
              | Some v => (task_plans st ++ [v])%list
              | None => task_plans st
              end;
            execution_history :=
              (execution_history st ++
               [history_entry d (user_input s) (thread_id st) (now_reply s)])%list |};
       output := []; ending := Rerun |}.
Proof.
  intros Hsent Ho Hd. cbv zeta.
  unfold submit, process_input. unfold sent in Hsent. rewrite Hsent; simpl.
  unfold call_orchestrator. unfold outcome in Ho. rewrite Ho; simpl.
  destruct d as [ | kv d]; [congruence|]. simpl.
  rewrite <- app_assoc. reflexivity.
Qed.

Lemma submit_not_sent (st : session_state) (s : submission) :
  sent s = false -> submit st s = {| state := st; output := []; ending := Finished |}.
Proof.
  intros Hsent. unfold submit, process_input. unfold sent in Hsent.
  rewrite Hsent. reflexivity.
Qed.

Lemma answered_inv (o : post_outcome) :
  answered o = true ->
  exists d, o = Response 200 (BodyJson (PyDict d)) /\ d <> [].
Proof.
  destruct o as [ | msg | code [v | msg]]; simpl; try discriminate.
  destruct v as [ | | | | | | [ | kv d]]; try discriminate.
  intros E; apply Z.eqb_eq in E; subst. eexists; split; [reflexivity | discriminate].
Qed.


Lemma call_failed_not_answered (o : post_outcome) :
  call_failed o = true -> answered o = false.
Proof.
  destruct o as [ | msg | code [v | msg]]; simpl; auto.
  destruct v as [ | | | | | | [ | kv d]]; auto.
  apply negb_true_iff.
Qed.

Lemma outcome_thread (st st' : session_state) (s : submission) :
  thread_id st = thread_id st' -> outcome st s = outcome st' s.
Proof. unfold outcome; intros ->; reflexivity. Qed.

(** ** Turn counting *)

(** One submission, by the types of the turns it appends. *)
Lemma submit_turn_types (st : session_state) (s : submission) :
  turn_types (messages (state (submit st s))) =
  (turn_types (messages st) ++
   (if sent s
    then user_type :: (if answered (outcome st s) then [assistant_type] else [])
    else []))%list.
Proof.
  destruct (sent s) eqn:Hsent.
  - destruct (answered (outcome st s)) eqn:Hans.
    + destruct (answered_inv _ Hans) as (d & Ho & Hd).
      rewrite (submit_answered st s d Hsent Ho Hd); simpl.
      unfold turn_types; rewrite map_app; reflexivity.
    + destruct (submit_unanswered st s Hsent Hans) as (-> & _).
      unfold turn_types; rewrite map_app; reflexivity.
  - rewrite (submit_not_sent st s Hsent); simpl. now rewrite app_nil_r.
Qed.

Lemma run_submissions_length (st0 : session_state) (l : list submission) :
  forall st, thread_id st = thread_id st0 ->
  let acted := filter sent l in
  (List.length (messages (run_submissions st l)) =
   List.length (messages st)
   + 2 * List.length (filter (fun s => answered (outcome st0 s)) acted)
   + 1 * List.length (filter (fun s => negb (answered (outcome st0 s))) acted))%nat.
Proof.
  cbv zeta. induction l as [ | s l IH]; intros st Ht; simpl.
  - lia.
  - rewrite IH by (rewrite thread_id_submit; exact Ht).
    pose proof (submit_turn_types st s) as Hs.
    apply (f_equal (@List.length _)) in Hs.
    unfold turn_types in Hs. rewrite length_app, !length_map in Hs.
    rewrite Hs. rewrite (outcome_thread st st0 s Ht).
    destruct (sent s); simpl; [|lia].
    destruct (answered (outcome st0 s)); simpl; lia.
Qed.

(** C1 (amended): every submission the handler acts on appends exactly one
    user turn, and exactly one assistant turn if and only if the call came
    back with status 200 and a body decoding to a non-empty object; the
    transcript grows by 2 for each such submission and by 1 for each
    other one.  Submissions do not change the thread id, so the request
    each of them sends, and with it [outcome st s], is the same from the
    initial state as from the state it runs in. *)
Theorem submissions_turn_count :
  (forall st s,
     turn_types (messages (state (submit st s))) =
     (turn_types (messages st) ++
      (if sent s
       then user_type :: (if answered (outcome st s) then [assistant_type] else [])
       else []))%list) /\
  (forall st l,
     let acted := filter sent l in
     let replied := filter (fun s => answered (outcome st s)) acted in
     let dangling := filter (fun s => negb (answered (outcome st s))) acted in
     (List.length (messages (run_submissions st l)) =
      List.length (messages st) + 2 * List.length replied
      + 1 * List.length dangling)%nat).
Proof.
  split.
  - exact submit_turn_types.
  - intros st l. exact (run_submissions_length st l st eq_refl).
Qed.

(** C3: a submission whose call fails below HTTP or comes back with a
    status other than 200 gets nothing from [call_orchestrator], appends
    its user turn and no assistant turn, so that the transcript ends with
    that user turn. *)
Theorem failed_call_leaves_dangling_user_turn
  (st : session_state) (s : submission) :
  sent s = true -> call_failed (outcome st s) = true ->
  fst (call_orchestrator (api_url s) (post s) (user_input s) (thread_id st))
    = PyNone /\
  messages (state (submit st s))
    = (messages st ++ [user_turn (user_input s) (now_user s)])%list /\
  last (turn_types (messages (state (submit st s)))) assistant_type = user_type /\
  task_plans (state (submit st s)) = task_plans st /\
  execution_history (state (submit st s)) = execution_history st.
Proof.
  intros Hsent Hfail.
  destruct (submit_unanswered st s Hsent (call_failed_not_answered _ Hfail))
    as (Hm & Hp & Hh).
  repeat split; auto.
  - unfold outcome in Hfail. unfold call_orchestrator.
    destruct (post s _) as [ | msg | code body]; simpl in *; auto.
    rewrite (proj1 (negb_true_iff _) Hfail). reflexivity.
  - rewrite Hm. unfold turn_types. rewrite map_app. simpl map. rewrite last_last. reflexivity.
Qed.

(** C10: "Clear History" empties the transcript and leaves the task-plan
    history, the execution history and the thread id as they were; a
    session can therefore show no turn while both histories are not empty,
    whereas "New Thread", at a finite clock reading, empties all three and
    installs the token of that reading. *)
Theorem clear_history_keeps_histories :
  (forall st,
     let st' := state (clear_history st) in
     messages st' = [] /\ task_plans st' = task_plans st /\
     execution_history st' = execution_history st /\
     thread_id st' = thread_id st) /\
  (exists l,
     let st' := state (clear_history (run_submissions sample_session l)) in
     messages st' = [] /\ task_plans st' <> [] /\ execution_history st' <> []) /\
  (forall st now n,
     py_int_of_float now = inr n ->
     let r := new_thread now st in
     ending r = Rerun /\
     messages (state r) = [] /\ task_plans (state r) = [] /\
     execution_history (state r) = [] /\
     thread_id (state r) = "thread_" ++ py_str_int n).
Proof.
  split; [|split].
  - intros st; simpl; auto.
  - exists [sample_submission "ping"
              (Response 200 (BodyJson (PyDict
                 [("status", PyStr "complete");
                  ("task_plan", PyDict [("agents", PyList [PyStr "agentX"])])])))].
    simpl. repeat split; discriminate.
  - intros st now n Hn; unfold new_thread, thread_token. rewrite Hn.
    simpl. repeat split.
Qed.

(** ** The assistant turn *)

(** C9: the content of the appended assistant turn is the response's
    [error] when that field is present and truthy (a non-empty text), and
    the fixed sentence otherwise, whatever the response's [status]. *)
Theorem assistant_content_is_error_or_default
  (st : session_state) (s : submission) (d : dict) :
  sent s = true -> outcome st s = Response 200 (BodyJson (PyDict d)) -> d <> [] ->
  exists turn,
    messages (state (submit st s))
      = (messages st ++ [user_turn (user_input s) (now_user s); turn])%list /\
    py_getitem turn "type" = assistant_type /\
    py_getitem turn "content"
      = inr (if truthy (get d "error" PyNone) then get d "error" PyNone
             else PyStr "Task completed successfully") /\
    (forall e, lookup "error" d = Some (PyStr e) -> e <> "" ->
               py_getitem turn "content" = inr (PyStr e)) /\
    (lookup "error" d = None \/ lookup "error" d = Some (PyStr "") ->
     py_getitem turn "content" = inr (PyStr "Task completed successfully")).
Proof.
  intros Hsent Ho Hd.
  pose proof (submit_answered st s d Hsent Ho Hd) as Hs; cbv zeta in Hs.
  eexists; split; [rewrite Hs; reflexivity|].
  split; [reflexivity|].
  split; [reflexivity|].
  split.
  - intros e He Hne. simpl. unfold py_or, get. rewrite He. simpl.
    apply String.eqb_neq in Hne. rewrite Hne. reflexivity.
  - intros [He | He]; simpl; unfold py_or, get; rewrite He; reflexivity.
Qed.

Lemma lift_inr {A : Type} (a : A) : lift (inr a) = ret a.
Proof. reflexivity. Qed.

Lemma bind_emit {A : Type} (w : widget) (k : unit -> ui A) :
  bind (emit w) k = (w :: fst (k tt), snd (k tt)).
Proof. unfold bind, emit. destruct (k tt); reflexivity. Qed.

Lemma bind_ret_l {A B : Type} (a : A) (k : A -> ui B) : bind (ret a) k = k a.
Proof. unfold bind, ret. destruct (k a); reflexivity. Qed.

Lemma calls_bind_emit {A : Type} (w : widget) (k : unit -> ui A) :
  calls (bind (emit w) k) = w :: calls (k tt).
Proof. unfold calls, bind, emit. destruct (k tt); reflexivity. Qed.

(** A binding whose right-hand side is a value is substituted. *)
Ltac ui_value := rewrite lift_inr, bind_ret_l.

(** C6: when the response has no [status] field, the appended assistant
    turn has status [pending], and its status banner is the "Processing"
    one, which is the second call made when the turn is displayed. *)
Theorem missing_status_defaults_to_pending
  (st : session_state) (s : submission) (d : dict) :
  sent s = true -> outcome st s = Response 200 (BodyJson (PyDict d)) -> d <> [] ->
  lookup "status" d = None ->
  exists turn,
    messages (state (submit st s))
      = (messages st ++ [user_turn (user_input s) (now_user s); turn])%list /\
    py_getitem turn "type" = assistant_type /\
    py_getitem turn "status" = inr (PyStr "pending") /\
    display_status turn = emit (st_info "Status: Processing") /\
    exists rest,
      calls (display_message turn)
        = st_markdown (PyStr ("**Orchestrator** (" ++ now_reply s ++ ")"))
          :: st_info "Status: Processing" :: rest.
Proof.
  intros Hsent Ho Hd Hstatus.
  pose proof (submit_answered st s d Hsent Ho Hd) as Hs; cbv zeta in Hs.
  eexists; split; [rewrite Hs; reflexivity|].
  split; [reflexivity|].
  assert (Hst : get d "status" (PyStr "pending") = PyStr "pending")
    by (unfold get; rewrite Hstatus; reflexivity).
  split; [simpl; rewrite Hst; reflexivity|].
  assert (Hbanner : display_status (assistant_turn d
              (match decode_task_plan d with Some v => v | None => PyNone end)
              (now_reply s)) = emit (st_info "Status: Processing")).
  { unfold display_status, assistant_turn; simpl. rewrite Hst. reflexivity. }
  split; [exact Hbanner|].
  unfold display_message.
    change (lift (py_getitem (assistant_turn d _ (now_reply s)) "type"))
      with (@ret pyval (PyStr "assistant")).
    rewrite bind_ret_l.
    change (py_eq_str (PyStr "assistant") "user") with false. cbv iota.
    rewrite bind_ret_l.
    change (py_eq_str (PyStr "assistant") "assistant") with true. cbv iota.
    change (lift (py_get (assistant_turn d _ (now_reply s)) "timestamp" (PyStr "")))
      with (@ret pyval (PyStr (now_reply s))).
    rewrite bind_ret_l, calls_bind_emit, Hbanner, calls_bind_emit.
    eexists. reflexivity.
Qed.

Lemma for_each_emit {A : Type} (f : A -> widget) (l : list A) :
  for_each l (fun x => emit (f x)) = (map f l, inr tt).
Proof.
  induction l as [ | x l IH]; [reflexivity|].
  cbn [for_each map]. rewrite IH. reflexivity.
Qed.

Lemma enumerate_map {A B : Type} (f : A -> B) (l : list A) :
  forall start,
  enumerate start (map f l) = map (fun ia => (fst ia, f (snd ia))) (enumerate start l).
Proof.
  induction l as [ | x l IH]; intros start; simpl; [reflexivity|].
  rewrite IH. reflexivity.
Qed.

(** C7: the [execution_order] of the response is stored as it came in the
    assistant turn and in the [agents] of the execution-history entry,
    and the "Order" tab writes one numbered line per name, in the same
    order and with repetitions kept. *)
Theorem execution_order_is_preserved
  (st : session_state) (s : submission) (d : dict) (names : list string) :
  sent s = true -> outcome st s = Response 200 (BodyJson (PyDict d)) ->
  lookup "execution_order" d = Some (PyList (map PyStr names)) -> names <> [] ->
  exists turn entry,
    messages (state (submit st s))
      = (messages st ++ [user_turn (user_input s) (now_user s); turn])%list /\
    execution_history (state (submit st s))
      = (execution_history st ++ [entry])%list /\
    py_getitem turn "execution_order" = inr (PyList (map PyStr names)) /\
    py_getitem entry "agents" = inr (PyList (map PyStr names)) /\
    display_order turn
      = (st_write (PyStr "**Agents will execute in this order:**")
         :: map (fun ia => st_write (PyStr (py_str_int (fst ia) ++ ". " ++ snd ia)))
                (enumerate 1 names),
         inr tt).
Proof.
  intros Hsent Ho Horder Hnames.
  assert (Hd : d <> []) by (intros ->; discriminate).
  pose proof (submit_answered st s d Hsent Ho Hd) as Hs; cbv zeta in Hs.
  do 2 eexists. rewrite Hs; simpl.
  split; [reflexivity|]. split; [reflexivity|].
  split; [simpl; unfold get; rewrite Horder; reflexivity|].
  split; [simpl; unfold get; rewrite Horder; reflexivity|].
  unfold display_order.
  change (py_get (assistant_turn d _ (now_reply s)) "execution_order" PyNone)
    with (@inr exn pyval (get d "execution_order" PyNone)).
  change (py_getitem (assistant_turn d _ (now_reply s)) "execution_order")
    with (@inr exn pyval (get d "execution_order" PyNone)).
  unfold get; rewrite Horder.
  destruct names as [ | a names]; [congruence|].
  ui_value.
  change (truthy (PyList (map PyStr (a :: names)))) with true. cbv iota.
  rewrite bind_emit; cbv beta. rewrite bind_ret_l.
  unfold py_iter. ui_value.
  rewrite for_each_emit, enumerate_map, map_map. reflexivity.
Qed.

(** ** Decoding the task plan *)

(** C5 (amended): decoding the [task_plan] of a response raises nothing
    out of the handler.  When the field is text that [json.loads] rejects,
    or is missing or falsy, the assistant turn's [task_plan] is [None] and
    nothing is appended to the task-plan history.  When it is non-empty
    text that [json.loads] decodes, or a truthy structured value, the
    decoded value is stored in the turn and appended to the history, a
    decoded null included.  So the history gains an entry exactly when the
    field is truthy and is not text that [json.loads] rejects. *)
Theorem task_plan_history_follows_decoder
  (st : session_state) (s : submission) (d : dict) :
  sent s = true -> outcome st s = Response 200 (BodyJson (PyDict d)) -> d <> [] ->
  exists turn,
    ending (submit st s) = Rerun /\
    messages (state (submit st s))
      = (messages st ++ [user_turn (user_input s) (now_user s); turn])%list /\
    py_getitem turn "type" = assistant_type /\
    (forall text,
       lookup "task_plan" d = Some (PyStr text) -> json_loads text = None ->
       py_getitem turn "task_plan" = inr PyNone /\
       task_plans (state (submit st s)) = task_plans st) /\
    (truthy (get d "task_plan" PyNone) = false ->
     py_getitem turn "task_plan" = inr PyNone /\
     task_plans (state (submit st s)) = task_plans st) /\
    (forall text v,
       lookup "task_plan" d = Some (PyStr text) -> text <> "" ->
       json_loads text = Some v ->
       py_getitem turn "task_plan" = inr v /\
       task_plans (state (submit st s)) = (task_plans st ++ [v])%list) /\
    (forall v,
       lookup "task_plan" d = Some v -> truthy v = true ->
       (forall text, v <> PyStr text) ->
       py_getitem turn "task_plan" = inr v /\
       task_plans (state (submit st s)) = (task_plans st ++ [v])%list) /\
    (List.length (task_plans (state (submit st s)))
     = S (List.length (task_plans st))
     <-> exists field,
           lookup "task_plan" d = Some field /\ truthy field = true /\
           forall text, field = PyStr text -> json_loads text <> None).
Proof.
  intros Hsent Ho Hd.
  pose proof (submit_answered st s d Hsent Ho Hd) as Hs; cbv zeta in Hs.
  eexists. rewrite Hs; simpl.
  split; [reflexivity|]. split; [reflexivity|]. split; [reflexivity|].
  split; [|split; [|split; [|split]]].
  - intros text Hfield Hbad.
    assert (Hnone : decode_task_plan d = None).
    { unfold decode_task_plan, get. rewrite Hfield, Hbad.
      destruct (truthy (PyStr text)); reflexivity. }
    rewrite Hnone. split; reflexivity.
  - intros Hfalsy.
    assert (Hnone : decode_task_plan d = None)
      by (unfold decode_task_plan; rewrite Hfalsy; reflexivity).
    rewrite Hnone. split; reflexivity.
  - intros text v Hfield Hne Hgood.
    assert (Hsome : decode_task_plan d = Some v).
    { unfold decode_task_plan, get. rewrite Hfield. simpl.
      apply String.eqb_neq in Hne. rewrite Hne. exact Hgood. }
    rewrite Hsome. split; reflexivity.
  - intros v Hfield Htruthy Hnot.
    assert (Hsome : decode_task_plan d = Some v).
    { unfold decode_task_plan, get. rewrite Hfield, Htruthy.
      destruct v; try reflexivity. exfalso; eapply Hnot; reflexivity. }
    rewrite Hsome. split; reflexivity.
  - destruct (decode_task_plan d) as [v | ] eqn:E.
    + rewrite length_app; simpl. split; [intros _ | intros _; lia].
      unfold decode_task_plan, get in E.
      destruct (lookup "task_plan" d) as [field | ]; [|discriminate E].
      destruct (truthy field) eqn:T; [|discriminate E].
      exists field. split; [reflexivity|]. split; [exact T|].
      intros text ->. congruence.
    + split; [lia|]. intros (field & Hf & T & Hok).
      unfold decode_task_plan, get in E. rewrite Hf, T in E.
      destruct field; try discriminate E. exfalso. exact (Hok _ eq_refl E).
Qed.

(** ** The orchestrator client *)

(** C2 (amended): when the orchestrator responds, [call_orchestrator]
    reports "API Error: <status>" and returns nothing exactly when the
    status is not 200, and for status 200 it returns the decoded body. *)
Theorem call_orchestrator_accepts_only_200
  (API_BASE_URL query tid : string) (post : network)
  (status_code : Z) (body : json_body) :
  post (orchestrate_request API_BASE_URL query tid) = Response status_code body ->
  (status_code <> 200 <->
   call_orchestrator API_BASE_URL post query tid
     = (PyNone, [st_error ("API Error: " ++ py_str_int status_code)])) /\
  (status_code = 200 ->
   forall v, body = BodyJson v ->
             call_orchestrator API_BASE_URL post query tid = (v, [])).
Proof.
  intros Hpost. unfold call_orchestrator. rewrite Hpost.
  destruct (status_code =? 200) eqn:E.
  - apply Z.eqb_eq in E. split.
    + split; [congruence|].
      destruct body as [v | msg]; discriminate.
    + intros _ v ->. reflexivity.
  - apply Z.eqb_neq in E. split.
    + split; [reflexivity | auto].
    + congruence.
Qed.

(** ** Thread tokens *)

Lemma py_str_int_inj (n n' : Z) : py_str_int n = py_str_int n' -> n = n'.
Proof.
  unfold py_str_int. intros E.
  apply DecimalZ.to_int_inj.
  apply (f_equal NilEmpty.int_of_string) in E.
  rewrite !NilEmpty.isi in E. congruence.
Qed.

Lemma thread_prefix_inj (a b : string) : "thread_" ++ a = "thread_" ++ b -> a = b.
Proof. simpl. intros E. injection E. auto. Qed.

(** C4 (amended): "New Thread" at a finite clock reading empties the
    transcript, the task-plan history and the execution history, and
    installs the token of the reading's whole second; the new token differs
    from the preceding one exactly when the two were generated in different
    whole seconds. *)
Theorem new_thread_clears_and_retokens
  (st : session_state) (prev now : float) (n n' : Z) :
  thread_token prev = inr (thread_id st) ->
  py_int_of_float prev = inr n -> py_int_of_float now = inr n' ->
  let st' := state (new_thread now st) in
  ending (new_thread now st) = Rerun /\
  messages st' = [] /\ task_plans st' = [] /\ execution_history st' = [] /\
  thread_id st' = "thread_" ++ py_str_int n' /\
  (thread_id st' <> thread_id st <-> n' <> n).
Proof.
  intros Hprev Hn Hn'. cbv zeta.
  unfold new_thread, thread_token in *. rewrite Hn in Hprev. rewrite Hn'.
  cbn [state ending messages task_plans execution_history thread_id].
  injection Hprev as Hprev. rewrite <- Hprev.
  repeat split; auto.
  - intros Hne ->. apply Hne. reflexivity.
  - intros Hne E. apply Hne. apply py_str_int_inj, thread_prefix_inj, E.
Qed.

(** ** Confidence *)

Lemma py_int_of_float_truncates (x : float) (m : positive) (e : Z) :
  Prim2SF x = S754_finite false m e ->
  exists n,
    py_int_of_float x = inr n /\ 0 <= n /\
    (0 <= e -> n = Z.pos m * 2 ^ e) /\
    (e < 0 -> n * 2 ^ (- e) <= Z.pos m < (n + 1) * 2 ^ (- e)).
Proof.
  intros Hx. unfold py_int_of_float. rewrite Hx.
  destruct (0 <=? e) eqn:E.
  - apply Z.leb_le in E. eexists; split; [reflexivity|].
    split; [|split; [reflexivity | lia]].
    apply Z.mul_nonneg_nonneg; [lia | apply Z.pow_nonneg; lia].
  - apply Z.leb_gt in E. eexists; split; [reflexivity|].
    assert (Hpow : 0 < 2 ^ (- e)) by (apply Z.pow_pos_nonneg; lia).
    split; [apply Z.div_pos; lia|]. split; [lia|]. intros _.
    pose proof (Z.mul_div_le (Z.pos m) (2 ^ (- e)) Hpow).
    pose proof (Z.mul_succ_div_gt (Z.pos m) (2 ^ (- e)) Hpow).
    lia.
Qed.

(** C8: the "Confidence" metric shows [int(confidence * 100)] followed by
    a percent sign, the integer being the binary64 product cut toward zero
    and not rounded to the nearest integer; 0.73 shows as 73% and
    0.999 as 99%. *)
Theorem confidence_percentage_is_truncated :
  (forall (d : dict) (x : float) (m : positive) (e : Z),
     lookup "confidence" d = Some (PyFloat x) ->
     Prim2SF (x * 100)%float = S754_finite false m e ->
     exists n,
       display_confidence (PyDict d)
         = emit (st_metric "Confidence" (PyStr (py_str_int n ++ "%"))) /\
       0 <= n /\
       (0 <= e -> n = Z.pos m * 2 ^ e) /\
       (e < 0 -> n * 2 ^ (- e) <= Z.pos m < (n + 1) * 2 ^ (- e))) /\
  (forall (d : dict) (x : float) (sign : bool),
     lookup "confidence" d = Some (PyFloat x) ->
     Prim2SF (x * 100)%float = S754_zero sign ->
     display_confidence (PyDict d)
       = emit (st_metric "Confidence" (PyStr "0%"))) /\
  (forall (d : dict) (n : Z),
     lookup "confidence" d = Some (PyInt n) ->
     display_confidence (PyDict d)
       = emit (st_metric "Confidence" (PyStr (py_str_int (n * 100) ++ "%")))) /\
  display_confidence (PyDict [("confidence", PyFloat 0.73)])
    = emit (st_metric "Confidence" (PyStr "73%")) /\
  display_confidence (PyDict [("confidence", PyFloat 0.999)])
    = emit (st_metric "Confidence" (PyStr "99%")).
Proof.
  split; [|split; [|split; [|split]]].
  - intros d x m e Hc Hx.
    destruct (py_int_of_float_truncates _ m e Hx) as (n & Hn & Hbounds).
    exists n. split; [|exact Hbounds].
    unfold display_confidence, py_get, get. rewrite Hc.
    ui_value. unfold py_mul_100. ui_value. unfold py_int. rewrite Hn.
    ui_value. reflexivity.
  - intros d x sign Hc Hx.
    unfold display_confidence, py_get, get. rewrite Hc.
    ui_value. unfold py_mul_100. ui_value. unfold py_int, py_int_of_float. rewrite Hx.
    ui_value. reflexivity.
  - intros d n Hc.
    unfold display_confidence, py_get, get. rewrite Hc.
    ui_value. unfold py_mul_100. ui_value. unfold py_int.
    ui_value. reflexivity.
  - vm_compute. reflexivity.
  - vm_compute. reflexivity.
Qed.


(** * Sessions over many runs *)

Lemma snoc_split {A : Type} (l pre post : list A) (x a : A) :
  (l ++ [x] = pre ++ a :: post)%list ->
  (post = [] /\ l = pre /\ x = a) \/
  (exists post', post = (post' ++ [x])%list /\ l = (pre ++ a :: post')%list).
Proof.
  induction post as [ | y post' _] using rev_ind; intros E.
  - left. apply app_inj_tail in E. destruct E; auto.
  - right. exists post'.
    change (pre ++ a :: post' ++ [y])%list
      with (pre ++ (a :: post') ++ [y])%list in E.
    rewrite app_assoc in E. apply app_inj_tail in E.
    destruct E as [-> ->]. auto.
Qed.

Lemma dialogue_types (l : list (exn + pyval)) :
  dialogue l -> Forall (fun t => t = user_type \/ t = assistant_type) l.
Proof.
  induction 1 as [ | l _ IH | l _ IH]; [constructor | |];
    apply Forall_app; split; auto.
Qed.

Lemma dialogue_assistant_follows_user (l : list (exn + pyval)) :
  dialogue l ->
  forall pre post, l = (pre ++ assistant_type :: post)%list ->
                   exists pre', pre = (pre' ++ [user_type])%list.
Proof.
  induction 1 as [ | l _ IH | l _ IH]; intros pre post E.
  - destruct pre; discriminate.
  - destruct (snoc_split _ _ _ _ _ E) as [(_ & _ & Hx) | (post' & _ & El)].
    + discriminate.
    + exact (IH _ _ El).
  - change (l ++ [user_type; assistant_type])%list
      with (l ++ [user_type] ++ [assistant_type])%list in E.
    rewrite app_assoc in E.
    destruct (snoc_split _ _ _ _ _ E) as [(_ & El & _) | (post' & _ & El)].
    + exists l. auto.
    + destruct (snoc_split _ _ _ _ _ El) as [(_ & _ & Hx) | (post'' & _ & El')].
      * discriminate.
      * exact (IH _ _ El').
Qed.

Lemma dialogue_step (st : session_state) (ev : event) :
  dialogue (turn_types (messages st)) ->
  dialogue (turn_types (messages (step st ev))).
Proof.
  intros Hd. destruct ev as [now | | s]; simpl.
  - unfold new_thread. destruct (thread_token now); simpl; [exact Hd | constructor].
  - constructor.
  - rewrite submit_turn_types.
    destruct (sent s); [|rewrite app_nil_r; exact Hd].
    destruct (answered (outcome st s)); constructor; exact Hd.
Qed.

Lemma init_session_empty (now : float) (st0 : session_state) :
  init_session now = inr st0 ->
  messages st0 = [] /\ task_plans st0 = [] /\ execution_history st0 = [] /\
  thread_token now = inr (thread_id st0).
Proof.
  unfold init_session. destruct (thread_token now); [discriminate|].
  intros E; injection E as <-. simpl; auto.
Qed.

(** X1: from the start of a session and through any presses of "Send",
    "Clear History" and "New Thread", the transcript only holds user and
    assistant turns, and every assistant turn comes right after a user
    turn. *)
Theorem transcript_is_a_dialogue
  (now : float) (st0 : session_state) (l : list event) :
  init_session now = inr st0 ->
  let types := turn_types (messages (run_events st0 l)) in
  Forall (fun t => t = user_type \/ t = assistant_type) types /\
  (forall pre post,
     types = (pre ++ assistant_type :: post)%list ->
     exists pre', pre = (pre' ++ [user_type])%list).
Proof.
  intros Hinit. cbv zeta.
  assert (Hd : dialogue (turn_types (messages (run_events st0 l)))).
  { destruct (init_session_empty _ _ Hinit) as (Hm & _).
    assert (H0 : dialogue (turn_types (messages st0))) by (rewrite Hm; constructor).
    clear Hinit Hm. revert st0 H0. unfold run_events.
    induction l as [ | ev l IH]; intros st0 H0; simpl; auto using dialogue_step. }
  split; [apply dialogue_types | apply dialogue_assistant_follows_user]; exact Hd.
Qed.

(** One submission, by what it adds to the two histories. *)
Lemma submit_histories (st : session_state) (s : submission) :
  (List.length (execution_history (state (submit st s))) =
   List.length (execution_history st)
   + (if sent s && answered (outcome st s) then 1 else 0))%nat /\
  (List.length (task_plans st) <= List.length (task_plans (state (submit st s)))
   <= List.length (task_plans st)
      + (if sent s && answered (outcome st s) then 1 else 0))%nat /\
  (List.length (filter is_assistant (messages (state (submit st s)))) =
   List.length (filter is_assistant (messages st))
   + (if sent s && answered (outcome st s) then 1 else 0))%nat.
Proof.
  destruct (sent s) eqn:Hsent; simpl.
  - destruct (answered (outcome st s)) eqn:Hans.
    + destruct (answered_inv _ Hans) as (d & Ho & Hd).
      rewrite (submit_answered st s d Hsent Ho Hd); simpl.
      rewrite filter_app, !length_app; simpl.
      destruct (decode_task_plan d); rewrite ?length_app; simpl; lia.
    + destruct (submit_unanswered st s Hsent Hans) as (-> & -> & ->).
      rewrite filter_app, length_app; simpl. lia.
  - rewrite (submit_not_sent st s Hsent); simpl. lia.
Qed.

(** X2: the execution history gains exactly one entry for each submission
    that is answered (status 200, non-empty object) and none for the
    others, failed calls included; the task-plan history gains at most as
    many. *)
Theorem execution_history_counts_answers
  (st : session_state) (l : list submission) :
  let replied := filter (fun s => answered (outcome st s)) (filter sent l) in
  (List.length (execution_history (run_submissions st l)) =
   List.length (execution_history st) + List.length replied)%nat /\
  (List.length (task_plans st) <= List.length (task_plans (run_submissions st l))
   <= List.length (task_plans st) + List.length replied)%nat.
Proof.
  cbv zeta.
  enough (G : forall st', thread_id st' = thread_id st ->
    (List.length (execution_history (run_submissions st' l)) =
     List.length (execution_history st')
     + List.length (filter (fun s => answered (outcome st s)) (filter sent l)))%nat /\
    (List.length (task_plans st') <= List.length (task_plans (run_submissions st' l))
     <= List.length (task_plans st')
        + List.length (filter (fun s => answered (outcome st s)) (filter sent l)))%nat)
    by (exact (G st eq_refl)).
  induction l as [ | s l IH]; intros st' Ht; simpl.
  - lia.
  - destruct (IH (state (submit st' s))) as (IHh & IHp);
      [rewrite thread_id_submit; exact Ht|].
    destruct (submit_histories st' s) as (Hh & Hp & _).
    rewrite (outcome_thread st' st s Ht) in Hh, Hp.
    unfold run_submissions in *. simpl in IHh, IHp. rewrite IHh.
    destruct (sent s); simpl in *; [|lia].
    destruct (answered (outcome st s)); simpl in *; lia.
Qed.

Lemma step_histories (st : session_state) (ev : event) :
  (List.length (task_plans st) <= List.length (execution_history st) ->
   List.length (task_plans (step st ev))
   <= List.length (execution_history (step st ev)))%nat /\
  (List.length (filter is_assistant (messages st))
   <= List.length (execution_history st) ->
   List.length (filter is_assistant (messages (step st ev)))
   <= List.length (execution_history (step st ev)))%nat /\
  (is_clear_history ev = false ->
   List.length (filter is_assistant (messages st))
   = List.length (execution_history st) ->
   List.length (filter is_assistant (messages (step st ev)))
   = List.length (execution_history (step st ev)))%nat.
Proof.
  destruct ev as [now | | s]; simpl.
  - unfold new_thread. destruct (thread_token now); simpl; auto.
  - repeat split; try lia; discriminate.
  - destruct (submit_histories st s) as (Hh & Hp & Ha).
    repeat split; intros; lia.
Qed.

Lemma run_events_bounds (l : list event) :
  forall st,
  (List.length (task_plans st) <= List.length (execution_history st))%nat ->
  (List.length (filter is_assistant (messages st))
   <= List.length (execution_history st))%nat ->
  (List.length (task_plans (run_events st l))
   <= List.length (execution_history (run_events st l)))%nat /\
  (List.length (filter is_assistant (messages (run_events st l)))
   <= List.length (execution_history (run_events st l)))%nat.
Proof.
  unfold run_events.
  induction l as [ | ev l IH]; intros st A B; simpl; auto.
  destruct (step_histories st ev) as (S1 & S2 & _). apply IH; auto.
Qed.

Lemma run_events_assistants (l : list event) :
  forall st,
  existsb is_clear_history l = false ->
  List.length (filter is_assistant (messages st))
  = List.length (execution_history st) ->
  List.length (filter is_assistant (messages (run_events st l)))
  = List.length (execution_history (run_events st l)).
Proof.
  unfold run_events.
  induction l as [ | ev l IH]; intros st Hl E; simpl in *; auto.
  apply orb_false_iff in Hl. destruct Hl as (Hev & Hl).
  destruct (step_histories st ev) as (_ & _ & S3). apply IH; auto.
Qed.

(** X3: in a session, the task-plan history is never longer than the
    execution history, and the transcript never holds more assistant turns
    than the execution history has entries; as long as "Clear History" is
    not pressed, the two numbers are equal. *)
Theorem histories_bounded_by_answers
  (now : float) (st0 : session_state) (l : list event) :
  init_session now = inr st0 ->
  let st := run_events st0 l in
  (List.length (task_plans st) <= List.length (execution_history st))%nat /\
  (List.length (filter is_assistant (messages st))
   <= List.length (execution_history st))%nat /\
  (existsb is_clear_history l = false ->
   List.length (filter is_assistant (messages st))
   = List.length (execution_history st)).
Proof.
  intros Hinit. cbv zeta.
  destruct (init_session_empty _ _ Hinit) as (Hm & Hp & Hh & _).
  destruct (run_events_bounds l st0) as (B1 & B2);
    [rewrite Hp, Hh; auto | rewrite Hm, Hh; auto |].
  repeat split; auto.
  intros Hl. apply run_events_assistants; [exact Hl | rewrite Hm, Hh; auto].
Qed.

Lemma thread_id_step (st : session_state) (ev : event) :
  is_new_thread ev = false -> thread_id (step st ev) = thread_id st.
Proof.
  destruct ev as [now | | s]; simpl; try discriminate; intros _.
  - reflexivity.
  - apply thread_id_submit.
Qed.

(** X4: only "New Thread" changes the thread id: after any presses of
    "Send" and "Clear History" the session still has the id it had. *)
Theorem thread_id_changes_only_on_new_thread
  (st : session_state) (l : list event) :
  existsb is_new_thread l = false -> thread_id (run_events st l) = thread_id st.
Proof.
  unfold run_events. revert st.
  induction l as [ | ev l IH]; intros st Hl; simpl in *; [reflexivity|].
  apply orb_false_iff in Hl. destruct Hl as (Hev & Hl).
  rewrite (IH _ Hl). apply thread_id_step, Hev.
Qed.

Lemma history_thread_step (st : session_state) (ev : event) :
  Forall (fun entry => py_getitem entry "thread_id" = inr (PyStr (thread_id st)))
         (execution_history st) ->
  Forall (fun entry => py_getitem entry "thread_id"
                       = inr (PyStr (thread_id (step st ev))))
         (execution_history (step st ev)).
Proof.
  intros Hst. destruct ev as [now | | s]; simpl.
  - unfold new_thread. destruct (thread_token now); simpl; [exact Hst | constructor].
  - exact Hst.
  - rewrite thread_id_submit.
    destruct (sent s) eqn:Hsent.
    + destruct (answered (outcome st s)) eqn:Hans.
      * destruct (answered_inv _ Hans) as (d & Ho & Hd).
        rewrite (submit_answered st s d Hsent Ho Hd); simpl.
        apply Forall_app; split; [exact Hst|].
        constructor; [reflexivity | constructor].
      * destruct (submit_unanswered st s Hsent Hans) as (_ & _ & ->). exact Hst.
    + rewrite (submit_not_sent st s Hsent). exact Hst.
Qed.

(** X5: in a session, every entry of the execution history was recorded
    under the thread id the session has now: a new thread starts with an
    empty history and nothing else changes the id. *)
Theorem history_entries_carry_thread_id
  (now : float) (st0 : session_state) (l : list event) :
  init_session now = inr st0 ->
  let st := run_events st0 l in
  Forall (fun entry => py_getitem entry "thread_id" = inr (PyStr (thread_id st)))
         (execution_history st).
Proof.
  intros Hinit. cbv zeta.
  destruct (init_session_empty _ _ Hinit) as (_ & _ & Hh & _).
  assert (H0 : Forall (fun entry => py_getitem entry "thread_id"
                                    = inr (PyStr (thread_id st0)))
                      (execution_history st0)) by (rewrite Hh; constructor).
  clear Hinit Hh. revert st0 H0. unfold run_events.
  induction l as [ | ev l IH]; intros st0 H0; simpl; auto using history_thread_step.
Qed.

(** X6: presses of "Send" with an empty text box leave no trace: a
    sequence of submissions ends in the same session as the sequence
    without them. *)
Theorem empty_submissions_are_ignored (st : session_state) (l : list submission) :
  run_submissions st l = run_submissions st (filter sent l).
Proof.
  unfold run_submissions. revert st.
  induction l as [ | s l IH]; intros st; simpl; [reflexivity|].
  destruct (sent s) eqn:Hsent; simpl.
  - apply IH.
  - rewrite (submit_not_sent st s Hsent); simpl. apply IH.
Qed.

(** * More on the client and the handler *)

(** X7: a 200 response whose body decodes to a truthy value that is not an
    object (a list, a text, a number, [true]) stops the handler with
    [AttributeError]: the user turn is already appended, no assistant turn
    and no history entry follow, and [st.rerun()] is not reached. *)
Theorem non_object_body_stops_the_handler
  (st : session_state) (s : submission) (v : pyval) :
  sent s = true -> outcome st s = Response 200 (BodyJson v) ->
  truthy v = true -> (forall d, v <> PyDict d) ->
  submit st s =
    {| state :=
         {| messages := (messages st ++ [user_turn (user_input s) (now_user s)])%list;
            thread_id := thread_id st;
            task_plans := task_plans st;
            execution_history := execution_history st |};
       output := []; ending := Raised AttributeError |}.
Proof.
  intros Hsent Ho Hv Hnd.
  unfold submit, process_input. unfold sent in Hsent. rewrite Hsent; simpl.
  unfold call_orchestrator. unfold outcome in Ho. rewrite Ho; simpl.
  rewrite Hv.
  destruct v; try reflexivity. exfalso; eapply Hnd; reflexivity.
Qed.

(** X8: [call_orchestrator] shows no error exactly when the status is 200
    and the body decodes, and it then returns the decoded value; in every
    other case it returns [None] and shows exactly one error. *)
Theorem call_orchestrator_reports_each_failure_once
  (API_BASE_URL query tid : string) (post : network) :
  let o := post (orchestrate_request API_BASE_URL query tid) in
  let r := call_orchestrator API_BASE_URL post query tid in
  (snd r = [] <-> exists v, o = Response 200 (BodyJson v)) /\
  (forall v, o = Response 200 (BodyJson v) -> fst r = v) /\
  (snd r <> [] -> fst r = PyNone /\ exists text, snd r = [st_error text]).
Proof.
  cbv zeta. unfold call_orchestrator.
  assert (Hfail : forall (o : post_outcome) (text : string),
            (forall v, o <> Response 200 (BodyJson v)) ->
            (snd (PyNone, [st_error text]) = [] <->
             exists v, o = Response 200 (BodyJson v)) /\
            (forall v, o = Response 200 (BodyJson v) ->
                       fst (PyNone, [st_error text]) = v) /\
            (snd (PyNone, [st_error text]) <> [] ->
             fst (PyNone, [st_error text]) = PyNone /\
             exists text', snd (PyNone, [st_error text]) = [st_error text'])).
  { intros o text Ho. simpl. split; [split|split].
    - discriminate.
    - intros (v & Ev). exfalso. exact (Ho v Ev).
    - intros v Ev. exfalso. exact (Ho v Ev).
    - intros _. split; [reflexivity | eexists; reflexivity]. }
  destruct (post _) as [ | msg | code body].
  - apply Hfail. discriminate.
  - apply Hfail. discriminate.
  - destruct (code =? 200) eqn:E.
    + apply Z.eqb_eq in E; subst code.
      destruct body as [v | msg].
      * simpl. split; [split|split].
        -- intros _. eexists; reflexivity.
        -- reflexivity.
        -- intros v' Ev. congruence.
        -- intros Hne. exfalso. apply Hne. reflexivity.
      * apply Hfail. discriminate.
    + apply Z.eqb_neq in E. apply Hfail. congruence.
Qed.

Lemma display_status_cases (d : dict) (task_plan : pyval) (timestamp : string) :
  display_status (assistant_turn d task_plan timestamp)
  = emit (let status := get d "status" (PyStr "pending") in
          if py_eq_str status "complete" then st_success "Status: Completed"
          else if py_eq_str status "error" then st_error "Status: Error"
          else st_info "Status: Processing").
Proof.
  unfold display_status.
  change (py_get (assistant_turn d task_plan timestamp) "status" (PyStr "pending"))
    with (@inr exn pyval (get d "status" (PyStr "pending"))).
  ui_value. cbv zeta.
  destruct (py_eq_str _ "complete"); [reflexivity|].
  destruct (py_eq_str _ "error"); reflexivity.
Qed.

Lemma py_eq_str_true (v : pyval) (s : string) :
  py_eq_str v s = true <-> v = PyStr s.
Proof.
  destruct v; simpl; try (split; [discriminate | congruence]).
  rewrite String.eqb_eq. split; congruence.
Qed.

(** X9: the status banner of the appended assistant turn is "Completed"
    exactly when the response's [status] is the text [complete], "Error"
    exactly when it is the text [error], and "Processing" for any other
    status, a missing one included. *)
Theorem status_banner_follows_response
  (st : session_state) (s : submission) (d : dict) :
  sent s = true -> outcome st s = Response 200 (BodyJson (PyDict d)) -> d <> [] ->
  exists turn,
    messages (state (submit st s))
      = (messages st ++ [user_turn (user_input s) (now_user s); turn])%list /\
    (display_status turn = emit (st_success "Status: Completed")
     <-> lookup "status" d = Some (PyStr "complete")) /\
    (display_status turn = emit (st_error "Status: Error")
     <-> lookup "status" d = Some (PyStr "error")) /\
    (lookup "status" d <> Some (PyStr "complete") ->
     lookup "status" d <> Some (PyStr "error") ->
     display_status turn = emit (st_info "Status: Processing")).
Proof.
  intros Hsent Ho Hd.
  pose proof (submit_answered st s d Hsent Ho Hd) as Hs; cbv zeta in Hs.
  eexists; split; [rewrite Hs; reflexivity|].
  rewrite display_status_cases. cbv zeta. unfold get.
  destruct (lookup "status" d) as [v | ] eqn:E.
  - destruct (py_eq_str v "complete") eqn:Ec.
    + apply py_eq_str_true in Ec; subst v.
      repeat split; auto; try discriminate; congruence.
    + destruct (py_eq_str v "error") eqn:Ee.
      * apply py_eq_str_true in Ee; subst v.
        repeat split; auto; try discriminate; congruence.
      * repeat split; auto; try discriminate; intros E'; injection E' as ->;
          simpl in *; discriminate.
  - simpl. repeat split; auto; discriminate.
Qed.

(** X10: when the response has no [execution_order], the assistant turn
    stores [None] for it while the execution-history entry stores the empty
    list, and the "Order" tab says that no order is available; when it has
    no [status], the turn stores [pending] while the entry stores [None]. *)
Theorem missing_fields_default_differently
  (st : session_state) (s : submission) (d : dict) :
  sent s = true -> outcome st s = Response 200 (BodyJson (PyDict d)) -> d <> [] ->
  exists turn entry,
    messages (state (submit st s))
      = (messages st ++ [user_turn (user_input s) (now_user s); turn])%list /\
    execution_history (state (submit st s))
      = (execution_history st ++ [entry])%list /\
    (lookup "execution_order" d = None ->
     py_getitem turn "execution_order" = inr PyNone /\
     py_getitem entry "agents" = inr (PyList []) /\
     display_order turn = emit (st_write (PyStr "No execution order available"))) /\
    (lookup "status" d = None ->
     py_getitem turn "status" = inr (PyStr "pending") /\
     py_getitem entry "status" = inr PyNone).
Proof.
  intros Hsent Ho Hd.
  pose proof (submit_answered st s d Hsent Ho Hd) as Hs; cbv zeta in Hs.
  do 2 eexists. rewrite Hs; simpl.
  split; [reflexivity|]. split; [reflexivity|]. split.
  - intros E.
    split; [simpl; unfold get; rewrite E; reflexivity|].
    split; [simpl; unfold get; rewrite E; reflexivity|].
    unfold display_order.
    change (py_get (assistant_turn d _ (now_reply s)) "execution_order" PyNone)
      with (@inr exn pyval (get d "execution_order" PyNone)).
    unfold get; rewrite E. ui_value. reflexivity.
  - intros E. split; simpl; unfold get; rewrite E; reflexivity.
Qed.

(** * More on the display *)

Lemma bind_ok {A B : Type} (w : list widget) (a : A) (k : A -> ui B) :
  bind (w, inr a) k = ((w ++ fst (k a))%list, snd (k a)).
Proof. unfold bind. destruct (k a); reflexivity. Qed.

Lemma bind_inv_ok {A B : Type} (m : ui A) (k : A -> ui B)
  (w : list widget) (b : B) :
  bind m k = (w, inr b) ->
  exists w1 a w2, m = (w1, inr a) /\ k a = (w2, inr b) /\ w = (w1 ++ w2)%list.
Proof.
  destruct m as [w1 [e | a]]; simpl; [discriminate|].
  destruct (k a) as [w2 r] eqn:E. intros E'; injection E' as <- ->.
  exists w1, a, w2. auto.
Qed.

Lemma for_each_app_ok {A : Type} (body : A -> ui unit) (l1 l2 : list A) :
  forall w1,
  for_each l1 body = (w1, inr tt) ->
  for_each (l1 ++ l2) body
  = ((w1 ++ fst (for_each l2 body))%list, snd (for_each l2 body)).
Proof.
  induction l1 as [ | x l1 IH]; intros w1 E.
  - injection E as <-. simpl. destruct (for_each l2 body); reflexivity.
  - cbn [for_each app] in *.
    destruct (bind_inv_ok _ _ _ _ E) as (wx & [] & wr & Ex & Er & ->).
    rewrite Ex, bind_ok, (IH _ Er). cbn [fst snd]. rewrite app_assoc. reflexivity.
Qed.

Lemma display_user_turn (u t : string) :
  display_message (user_turn u t)
  = ([st_markdown (PyStr ("**You** (" ++ t ++ ")"));
      st_markdown (PyStr ("> " ++ u)); st_divider], inr tt).
Proof. reflexivity. Qed.

(** Runs a display computation whose bindings are all values. *)
Ltac run_ui := cbv beta iota delta [bind lift emit ret fst snd app].

Lemma display_turn_with_text_result
  (d : dict) (timestamp agent_name : string) (result : pyval) (others : dict) :
  lookup "execution_order" d = None ->
  lookup "results" d = Some (PyDict ((agent_name, result) :: others)) ->
  (forall r, result <> PyDict r) ->
  display_message (assistant_turn d PyNone timestamp)
  = ([st_markdown (PyStr ("**Orchestrator** (" ++ timestamp ++ ")"));
      (let status := get d "status" (PyStr "pending") in
       if py_eq_str status "complete" then st_success "Status: Completed"
       else if py_eq_str status "error" then st_error "Status: Error"
       else st_info "Status: Processing");
      st_markdown (py_or (get d "error" PyNone)
                         (PyStr "Task completed successfully"));
      st_tabs ["Plan"; "Order"; "Results"; "Error"];
      st_write (PyStr "No task plan available");
      st_write (PyStr "No execution order available");
      st_subheader ("Agent: " ++ agent_name)],
     inl AttributeError).
Proof.
  intros Horder Hresults Hresult.
  unfold assistant_turn, get. rewrite Horder, Hresults. cbv zeta.
  generalize (match lookup "status" d with
              | Some v => v
              | None => PyStr "pending"
              end) as status.
  generalize (match lookup "error" d with
              | Some v => v
              | None => PyNone
              end) as error.
  generalize (match lookup "status" d with
              | Some v => v
              | None => PyNone
              end) as status'.
  intros _ error status.
  destruct (py_eq_str status "complete") eqn:Ec;
    [|destruct (py_eq_str status "error") eqn:Ee];
    (destruct result as [ | b | n | x | text | l | r];
     [ | | | | | | exfalso; eapply Hresult; reflexivity];
     unfold display_message, display_status, display_order, py_get, py_getitem, get;
     cbn [lookup String.eqb Ascii.eqb Bool.eqb];
     run_ui; rewrite ?Ec, ?Ee; reflexivity).
Qed.

(** X11: when the orchestrator answers with neither a task plan nor an
    execution order and with results whose first agent result is not an
    object (a text for instance), the assistant turn is stored all the
    same, and drawing the transcript after that submission stops with
    [AttributeError] in the "Results" tab, right after that agent's
    heading: the "Error" tab and the closing divider are not drawn. *)
Theorem text_agent_result_stops_the_display
  (st : session_state) (s : submission) (d : dict)
  (agent_name : string) (result : pyval) (others : dict) (w : list widget) :
  sent s = true -> outcome st s = Response 200 (BodyJson (PyDict d)) ->
  lookup "task_plan" d = None -> lookup "execution_order" d = None ->
  lookup "results" d = Some (PyDict ((agent_name, result) :: others)) ->
  (forall r, result <> PyDict r) ->
  display_messages st = (w, inr tt) ->
  display_messages (state (submit st s))
  = ((w ++ [st_markdown (PyStr ("**You** (" ++ now_user s ++ ")"));
            st_markdown (PyStr ("> " ++ user_input s));
            st_divider;
            st_markdown (PyStr ("**Orchestrator** (" ++ now_reply s ++ ")"));
            (let status := get d "status" (PyStr "pending") in
             if py_eq_str status "complete" then st_success "Status: Completed"
             else if py_eq_str status "error" then st_error "Status: Error"
             else st_info "Status: Processing");
            st_markdown (py_or (get d "error" PyNone)
                               (PyStr "Task completed successfully"));
            st_tabs ["Plan"; "Order"; "Results"; "Error"];
            st_write (PyStr "No task plan available");
            st_write (PyStr "No execution order available");
            st_subheader ("Agent: " ++ agent_name)])%list,
     inl AttributeError).
Proof.
  intros Hsent Ho Hplan Horder Hresults Hresult Hdrawn.
  assert (Hd : d <> []) by (intros ->; discriminate).
  pose proof (submit_answered st s d Hsent Ho Hd) as Hs; cbv zeta in Hs.
  assert (Hnone : decode_task_plan d = None)
    by (unfold decode_task_plan, get; rewrite Hplan; reflexivity).
  rewrite Hnone in Hs. rewrite Hs.
  unfold display_messages in *. cbn [state messages].
  rewrite (for_each_app_ok _ _ _ _ Hdrawn). cbn [for_each].
  rewrite display_user_turn, bind_ok. cbn [fst snd].
  rewrite (display_turn_with_text_result d (now_reply s) agent_name result others
             Horder Hresults Hresult).
  reflexivity.
Qed.

(** X12: a transcript of user turns only, as left by calls that all
    failed, is drawn completely and without exception: a header, the quoted
    text and a divider for each turn, in order. *)
Theorem user_turns_are_displayed
  (st : session_state) (turns : list (string * string)) :
  messages st = map (fun ut => user_turn (fst ut) (snd ut)) turns ->
  display_messages st
  = (flat_map (fun ut => [st_markdown (PyStr ("**You** (" ++ snd ut ++ ")"));
                          st_markdown (PyStr ("> " ++ fst ut)); st_divider])
              turns,
     inr tt).
Proof.
  intros Hm. unfold display_messages. rewrite Hm. clear Hm.
  induction turns as [ | [u t] turns IH]; [reflexivity|].
  cbn [map for_each flat_map fst snd].
  rewrite display_user_turn, bind_ok, IH. reflexivity.
Qed.

Lemma chars_enumerate (text : string) :
  forall start,
  enumerate start (chars text)
  = map (fun ic => (fst ic, PyStr (String (snd ic) EmptyString)))
        (enumerate start (list_ascii_of_string text)).
Proof.
  unfold chars. intros start.
  exact (enumerate_map (fun c => PyStr (String c EmptyString)) _ start).
Qed.

(** X13: an [execution_order] that is a non-empty text is listed character
    by character in the "Order" tab, and one that is a non-zero number
    stops the display with [TypeError] after the heading. *)
Theorem order_tab_on_non_lists (msg : dict) :
  (forall text,
     lookup "execution_order" msg = Some (PyStr text) -> text <> "" ->
     display_order (PyDict msg)
     = (st_write (PyStr "**Agents will execute in this order:**")
        :: map (fun ic => st_write (PyStr (py_str_int (fst ic) ++ ". "
                                             ++ String (snd ic) EmptyString)))
               (enumerate 1 (list_ascii_of_string text)),
        inr tt)) /\
  (forall n,
     lookup "execution_order" msg = Some (PyInt n) -> n <> 0 ->
     display_order (PyDict msg)
     = ([st_write (PyStr "**Agents will execute in this order:**")],
        inl TypeError)).
Proof.
  split.
  - intros text E Hne.
    unfold display_order, py_get, py_getitem, get. rewrite E. ui_value.
    apply String.eqb_neq in Hne.
    change (truthy (PyStr text)) with (negb (text =? "")%string).
    rewrite Hne. cbv iota beta delta [negb].
    rewrite bind_emit; cbv beta. rewrite bind_ret_l. unfold py_iter. ui_value.
    rewrite for_each_emit, chars_enumerate, map_map. reflexivity.
  - intros n E Hne.
    unfold display_order, py_get, py_getitem, get. rewrite E. ui_value.
    apply Z.eqb_neq in Hne.
    change (truthy (PyInt n)) with (negb (n =? 0)). rewrite Hne.
    cbv iota beta delta [negb].
    rewrite bind_emit; cbv beta. rewrite bind_ret_l. reflexivity.
Qed.

Lemma truthy_dict (d : dict) : d <> [] -> truthy (PyDict d) = true.
Proof. destruct d; [congruence | reflexivity]. Qed.

(** X14: for a plan whose [agents] are a list of names (none when the key
    is missing) and whose confidence can be shown, [display_task_plan]
    never raises; it draws the three metrics, the reasoning ("N/A" when
    missing) and one numbered line per agent in the order of the list, so
    that the "Agents" metric is the number of lines. *)
Theorem display_task_plan_lists_agents
  (d : dict) (names : list string) (cw : list widget) :
  d <> [] ->
  get d "agents" (PyList []) = PyList (map PyStr names) ->
  display_confidence (PyDict d) = (cw, inr tt) ->
  display_task_plan (PyDict d)
  = ((st_columns 3
      :: st_metric "Agents" (PyInt (Z.of_nat (List.length names)))
      :: cw)
     ++ st_metric "Status"
          (PyStr (if truthy (get d "uncertain" (PyBool false))
                  then "Uncertain" else "Confident"))
        :: st_write (PyStr "**Reasoning:**")
        :: st_write (get d "reasoning" (PyStr "N/A"))
        :: st_write (PyStr "**Execution Order:**")
        :: map (fun ia => st_write (PyStr ("  " ++ py_str_int (fst ia) ++ ". "
                                             ++ snd ia)))
               (enumerate 1 names),
     inr tt)%list.
Proof.
  intros Hd Hagents Hc.
  unfold display_task_plan. rewrite (truthy_dict d Hd). cbv iota beta delta [negb].
  unfold py_get. rewrite Hagents, Hc.
  rewrite bind_emit; cbv beta. ui_value.
  unfold py_len. rewrite length_map. ui_value.
  rewrite bind_emit; cbv beta. rewrite bind_ok; cbv beta. ui_value.
  rewrite bind_emit; cbv beta. rewrite bind_emit; cbv beta. ui_value.
  rewrite bind_emit; cbv beta. rewrite bind_emit; cbv beta.
  rewrite bind_ret_l. unfold py_iter. ui_value.
  rewrite for_each_emit, enumerate_map, map_map. reflexivity.
Qed.

(** X15: a plan whose [confidence] is present and null stops
    [display_task_plan] with [TypeError] once the "Agents" metric is
    drawn: the default 0 only replaces a missing key. *)
Theorem null_confidence_stops_the_plan (d : dict) (n : Z) :
  lookup "confidence" d = Some PyNone ->
  py_len (get d "agents" (PyList [])) = inr n ->
  display_task_plan (PyDict d)
  = ([st_columns 3; st_metric "Agents" (PyInt n)], inl TypeError).
Proof.
  intros Hc Hn.
  assert (Hd : d <> []) by (intros ->; discriminate).
  unfold display_task_plan. rewrite (truthy_dict d Hd). cbv iota beta delta [negb].
  unfold py_get. rewrite bind_emit; cbv beta. ui_value. rewrite Hn. ui_value.
  rewrite bind_emit; cbv beta.
  unfold display_confidence, py_get, get. rewrite Hc. ui_value.
  reflexivity.
Qed.

Lemma getitem_of_truthy_get (r : dict) (k : string) :
  truthy (get r k PyNone) = true ->
  py_getitem (PyDict r) k = inr (get r k PyNone).
Proof.
  unfold get, py_getitem. destruct (lookup k r); [reflexivity | discriminate].
Qed.

(** What lies between the first two calls and the last one. *)
Ltac between_two_and_last :=
  match goal with
  | |- exists body, ?l = _ => exists (removelast (tl (tl l))); reflexivity
  end.

(** X16: [display_agent_result] never raises on a result that is an
    object: it draws the agent's heading, then the error when the result
    has a truthy one and "Success" otherwise, and ends with a divider; on
    a result that is not an object it stops with [AttributeError] right
    after the heading. *)
Theorem display_agent_result_on_objects (agent_name : string) :
  (forall r : dict,
     snd (display_agent_result agent_name (PyDict r)) = inr tt /\
     exists body,
       calls (display_agent_result agent_name (PyDict r))
       = st_subheader ("Agent: " ++ agent_name)
         :: (if truthy (get r "error" PyNone)
             then st_error ("Error: " ++ py_format (get r "error" PyNone))
             else st_success "Success")
         :: (body ++ [st_divider])%list) /\
  (forall result,
     (forall r, result <> PyDict r) ->
     display_agent_result agent_name result
     = ([st_subheader ("Agent: " ++ agent_name)], inl AttributeError)).
Proof.
  split.
  - intros r. unfold display_agent_result, calls, py_get, py_getitem, get.
    destruct (lookup "error" r) as [e | ];
      destruct (lookup "response" r) as [[ | b | n | x | text | l | o] | ];
      destruct (lookup "metadata" r) as [m | ];
      run_ui;
      repeat match goal with
             | |- context [truthy PyNone] => change (truthy PyNone) with false; run_ui
             | |- context [if truthy ?v then _ else _] => destruct (truthy v); run_ui
             | |- context [json_loads ?s] => destruct (json_loads s); run_ui
             end;
      (split; [reflexivity | between_two_and_last]).
  - intros result Hr. unfold display_agent_result.
    rewrite bind_emit; cbv beta.
    destruct result; try reflexivity. exfalso; eapply Hr; reflexivity.
Qed.

(** X17: the content of the sidebar's URL box always decides where the
    request goes, whatever [ORCHESTRATOR_URL] says: the request is posted
    to the box's content followed by [/orchestrate]. *)
Theorem url_box_decides_the_endpoint
  (ORCHESTRATOR_URL : option string) (api_url query tid : string) (post : network) :
  let base := sidebar_base_url (env_base_url ORCHESTRATOR_URL) api_url in
  base = api_url /\
  call_orchestrator base post query tid = call_orchestrator api_url post query tid /\
  url (orchestrate_request base query tid) = api_url ++ "/orchestrate".
Proof.
  cbv zeta.
  assert (E : sidebar_base_url (env_base_url ORCHESTRATOR_URL) api_url = api_url).
  { unfold sidebar_base_url.
    destruct (String.eqb api_url (env_base_url ORCHESTRATOR_URL)) eqn:E; simpl.
    - apply String.eqb_eq in E. congruence.
    - reflexivity. }
  rewrite E. repeat split.
Qed.

Lemma histories_refer_grow (st : session_state) (more : list pyval)
  (plans entries : list pyval) :
  histories_refer_to_transcript st ->
  Forall (fun plan =>
            exists turn, In turn more /\ is_assistant turn = true /\
                         py_getitem turn "task_plan" = inr plan) plans ->
  Forall (fun entry =>
            exists turn, In turn more /\
                         py_getitem turn "type" = user_type /\
                         py_getitem turn "content" = py_getitem entry "query")
         entries ->
  histories_refer_to_transcript
    {| messages := (messages st ++ more)%list; thread_id := thread_id st;
       task_plans := (task_plans st ++ plans)%list;
       execution_history := (execution_history st ++ entries)%list |}.
Proof.
  intros (Hp & He) Hplans Hentries. split; simpl; apply Forall_app; split.
  - eapply Forall_impl; [|exact Hp]. intros plan (turn & Hin & Hrest).
    exists turn. split; [apply in_or_app; auto | exact Hrest].
  - eapply Forall_impl; [|exact Hplans]. intros plan (turn & Hin & Hrest).
    exists turn. split; [apply in_or_app; auto | exact Hrest].
  - eapply Forall_impl; [|exact He]. intros entry (turn & Hin & Hrest).
    exists turn. split; [apply in_or_app; auto | exact Hrest].
  - eapply Forall_impl; [|exact Hentries]. intros entry (turn & Hin & Hrest).
    exists turn. split; [apply in_or_app; auto | exact Hrest].
Qed.

Lemma histories_refer_step (st : session_state) (ev : event) :
  is_clear_history ev = false ->
  histories_refer_to_transcript st ->
  histories_refer_to_transcript (step st ev).
Proof.
  intros Hev Hst. destruct ev as [now | | s]; simpl; [ | discriminate | ].
  - unfold new_thread. destruct (thread_token now); simpl; [exact Hst|].
    split; constructor.
  - destruct (sent s) eqn:Hsent.
    + destruct (answered (outcome st s)) eqn:Hans.
      * destruct (answered_inv _ Hans) as (d & Ho & Hd).
        rewrite (submit_answered st s d Hsent Ho Hd); simpl.
        pose proof (histories_refer_grow st
                      [user_turn (user_input s) (now_user s);
                       assistant_turn d
                         (match decode_task_plan d with Some v => v | None => PyNone end)
                         (now_reply s)]
                      (match decode_task_plan d with Some v => [v] | None => [] end)
                      [history_entry d (user_input s) (thread_id st) (now_reply s)]
                      Hst) as G.
        assert (Ep : (match decode_task_plan d with
                      | Some v => (task_plans st ++ [v])%list
                      | None => task_plans st
                      end)
                     = (task_plans st
                        ++ match decode_task_plan d with Some v => [v] | None => [] end)%list)
          by (destruct (decode_task_plan d); [reflexivity | now rewrite app_nil_r]).
        rewrite Ep. apply G.
        -- destruct (decode_task_plan d) as [v | ]; constructor; [|constructor].
           eexists. split; [right; left; reflexivity|]. split; reflexivity.
        -- constructor; [|constructor].
           eexists. split; [left; reflexivity|]. split; reflexivity.
      * pose proof (histories_refer_grow st
                      [user_turn (user_input s) (now_user s)] [] [] Hst) as G.
        destruct (submit_unanswered st s Hsent Hans) as (Em & Ep & Eh).
        destruct G as (G1 & G2); [constructor | constructor |]. simpl in G1, G2.
        rewrite app_nil_r in G1, G2.
        split; [rewrite Em, Ep; exact G1 | rewrite Em, Eh; exact G2].
    + rewrite (submit_not_sent st s Hsent). exact Hst.
Qed.

(** X18: in a session where "Clear History" is not pressed, every entry of
    the task-plan history is the [task_plan] of an assistant turn of the
    transcript, and every entry of the execution history records the text
    of a user turn of the transcript. *)
Theorem histories_follow_the_transcript
  (now : float) (st0 : session_state) (l : list event) :
  init_session now = inr st0 ->
  existsb is_clear_history l = false ->
  histories_refer_to_transcript (run_events st0 l).
Proof.
  intros Hinit Hl.
  destruct (init_session_empty _ _ Hinit) as (_ & Hp & Hh & _).
  assert (H0 : histories_refer_to_transcript st0)
    by (split; [rewrite Hp | rewrite Hh]; constructor).
  clear Hinit Hp Hh. revert st0 H0. unfold run_events.
  induction l as [ | ev l IH]; intros st0 H0; simpl in *; [exact H0|].
  apply orb_false_iff in Hl. destruct Hl as (Hev & Hl).
  apply IH; [exact Hl | apply histories_refer_step; assumption].
Qed.
End Properties.

(** * Concrete runs *)

#[local] Existing Instance sample_runtime.

(** C1, as stated, fails: a call that comes back with an HTTP response is
    not always followed by an assistant turn.  A 500 response and a 200
    response with the empty object both leave the user turn alone. *)
Lemma response_without_assistant_turn :
  let s500 := sample_submission "q"
                (Response 500 (BodyJson (PyDict [("error", PyStr "boom")]))) in
  let s200 := sample_submission "q" (Response 200 (BodyJson (PyDict []))) in
  sent s500 = true /\
  response_received (outcome sample_session s500) = true /\
  turn_types (messages (state (submit sample_session s500))) = [user_type] /\
  sent s200 = true /\
  response_received (outcome sample_session s200) = true /\
  turn_types (messages (state (submit sample_session s200))) = [user_type].
Proof. cbv zeta. repeat split; reflexivity. Qed.

(** C2, as stated, fails: statuses 201 and 204 are success statuses, and
    the call reports an API error and returns nothing. *)
Lemma status_201_and_204_are_rejected :
  let body := BodyJson (PyDict [("status", PyStr "complete")]) in
  call_orchestrator "http://localhost:9000" (fun _ => Response 201 body)
    "q" "thread_1700000000"
    = (PyNone, [st_error "API Error: 201"]) /\
  call_orchestrator "http://localhost:9000" (fun _ => Response 204 body)
    "q" "thread_1700000000"
    = (PyNone, [st_error "API Error: 204"]).
Proof. cbv zeta. split; reflexivity. Qed.

(** C2 at work: a 404 is reported, a 200 hands the body over. *)
Lemma call_orchestrator_accepts_only_200_witness :
  let body := PyDict [("status", PyStr "complete")] in
  call_orchestrator "http://localhost:9000" (fun _ => Response 404 (BodyJson body))
    "q" "thread_1700000000"
    = (PyNone, [st_error "API Error: 404"]) /\
  call_orchestrator "http://localhost:9000" (fun _ => Response 200 (BodyJson body))
    "q" "thread_1700000000"
    = (body, []).
Proof.
  cbv zeta. split.
  - apply (proj1 (call_orchestrator_accepts_only_200 "http://localhost:9000" "q"
                    "thread_1700000000" _ 404 _ eq_refl)).
    discriminate.
  - exact (proj2 (call_orchestrator_accepts_only_200 "http://localhost:9000" "q"
                    "thread_1700000000" _ 200 _ eq_refl) eq_refl _ eq_refl).
Defined.

(** C3 at work: "q" against an unreachable endpoint leaves one turn. *)
Lemma failed_call_leaves_dangling_user_turn_witness :
  let s := sample_submission "q" ConnectionError in
  fst (call_orchestrator (api_url s) (post s) (user_input s)
         (thread_id sample_session)) = PyNone /\
  messages (state (submit sample_session s)) = [user_turn "q" "12:00:00"] /\
  last (turn_types (messages (state (submit sample_session s)))) assistant_type
    = user_type /\
  task_plans (state (submit sample_session s)) = [] /\
  execution_history (state (submit sample_session s)) = [].
Proof.
  exact (failed_call_leaves_dangling_user_turn sample_session
           (sample_submission "q" ConnectionError) eq_refl eq_refl).
Defined.

(** C4, as stated, fails: two resets within one second install the same
    token. *)
Lemma new_thread_twice_in_one_second :
  let first := new_thread 1700000000.25 sample_session in
  let second := new_thread 1700000000.75 (state first) in
  ending first = Rerun /\ ending second = Rerun /\
  thread_id (state first) = "thread_1700000000" /\
  thread_id (state second) = thread_id (state first).
Proof. cbv zeta. repeat split; vm_compute; reflexivity. Qed.

(** C4 (amended) at work: a reset one minute after the thread began. *)
Lemma new_thread_clears_and_retokens_witness :
  let r := new_thread 1700000060.5 sample_session in
  ending r = Rerun /\
  messages (state r) = [] /\ task_plans (state r) = [] /\
  execution_history (state r) = [] /\
  thread_id (state r) = "thread_" ++ py_str_int 1700000060 /\
  (thread_id (state r) <> thread_id sample_session <-> 1700000060 <> 1700000000).
Proof.
  exact (new_thread_clears_and_retokens sample_session 1700000000.25 1700000060.5
           1700000000 1700000060 eq_refl eq_refl eq_refl).
Defined.

(** C5, as stated, fails.  The text null is valid JSON and decodes to
    [None]: the history receives that entry while the turn has no plan and
    its "Plan" tab says so.  The text NaN is not valid JSON and
    [json.loads] decodes it all the same: the turn stores the value and the
    history receives it. *)
Lemma decoded_null_and_nan_task_plans :
  let null_answer := [("status", PyStr "complete"); ("task_plan", PyStr "null")] in
  let nan_answer := [("status", PyStr "complete"); ("task_plan", PyStr "NaN")] in
  let st1 := state (submit sample_session
                      (sample_submission "q"
                         (Response 200 (BodyJson (PyDict null_answer))))) in
  let st2 := state (submit (H := sample_runtime_nan) sample_session
                      (sample_submission "q"
                         (Response 200 (BodyJson (PyDict nan_answer))))) in
  task_plans st1 = [PyNone] /\
  map (fun turn => py_getitem turn "task_plan") (messages st1)
    = [inl KeyError; inr PyNone] /\
  In (st_write (PyStr "No task plan available")) (calls (display_messages st1)) /\
  task_plans st2 = [PyFloat nan] /\
  map (fun turn => py_getitem turn "task_plan") (messages st2)
    = [inl KeyError; inr (PyFloat nan)].
Proof.
  cbv zeta. repeat split; try reflexivity.
  vm_compute. do 7 right. left. reflexivity.
Qed.

(** C5 (amended) at work: a [task_plan] text cut in the middle. *)
Lemma task_plan_history_follows_decoder_witness :
  let d := [("status", PyStr "complete"); ("task_plan", PyStr "{agents: ")] in
  let s := sample_submission "q" (Response 200 (BodyJson (PyDict d))) in
  exists turn,
    ending (submit sample_session s) = Rerun /\
    messages (state (submit sample_session s)) = [user_turn "q" "12:00:00"; turn] /\
    py_getitem turn "type" = assistant_type /\
    (forall text,
       lookup "task_plan" d = Some (PyStr text) -> json_loads text = None ->
       py_getitem turn "task_plan" = inr PyNone /\
       task_plans (state (submit sample_session s)) = []) /\
    (truthy (get d "task_plan" PyNone) = false ->
     py_getitem turn "task_plan" = inr PyNone /\
     task_plans (state (submit sample_session s)) = []) /\
    (forall text v,
       lookup "task_plan" d = Some (PyStr text) -> text <> "" ->
       json_loads text = Some v ->
       py_getitem turn "task_plan" = inr v /\
       task_plans (state (submit sample_session s)) = [v]) /\
    (forall v,
       lookup "task_plan" d = Some v -> truthy v = true ->
       (forall text, v <> PyStr text) ->
       py_getitem turn "task_plan" = inr v /\
       task_plans (state (submit sample_session s)) = [v]) /\
    (List.length (task_plans (state (submit sample_session s))) = 1%nat
     <-> exists field,
           lookup "task_plan" d = Some field /\ truthy field = true /\
           forall text, field = PyStr text -> json_loads text <> None).
Proof.
  exact (task_plan_history_follows_decoder sample_session
           (sample_submission "q"
              (Response 200 (BodyJson (PyDict
                 [("status", PyStr "complete"); ("task_plan", PyStr "{agents: ")]))))
           _ eq_refl eq_refl ltac:(discriminate)).
Defined.

(** C10 at work: "New Thread" one minute after the thread began. *)
Lemma clear_history_keeps_histories_witness :
  let r := new_thread 1700000060.5 sample_session in
  ending r = Rerun /\
  messages (state r) = [] /\ task_plans (state r) = [] /\
  execution_history (state r) = [] /\
  thread_id (state r) = "thread_1700000060".
Proof.
  exact (proj2 (proj2 clear_history_keeps_histories)
           sample_session 1700000060.5%float 1700000060 eq_refl).
Defined.

(** C6 at work: a response with an order and no status. *)
Lemma missing_status_defaults_to_pending_witness :
  let d := [("execution_order", PyList [PyStr "agentX"])] in
  let s := sample_submission "ping" (Response 200 (BodyJson (PyDict d))) in
  exists turn,
    messages (state (submit sample_session s)) = [user_turn "ping" "12:00:00"; turn] /\
    py_getitem turn "type" = assistant_type /\
    py_getitem turn "status" = inr (PyStr "pending") /\
    display_status turn = emit (st_info "Status: Processing") /\
    exists rest,
      calls (display_message turn)
        = st_markdown (PyStr "**Orchestrator** (12:00:01)")
          :: st_info "Status: Processing" :: rest.
Proof.
  exact (missing_status_defaults_to_pending sample_session
           (sample_submission "ping"
              (Response 200 (BodyJson (PyDict
                 [("execution_order", PyList [PyStr "agentX"])]))))
           _ eq_refl eq_refl ltac:(discriminate) eq_refl).
Defined.

(** C7 at work: the order A, B, C. *)
Lemma execution_order_is_preserved_witness :
  let order := PyList [PyStr "A"; PyStr "B"; PyStr "C"] in
  let d := [("status", PyStr "complete"); ("execution_order", order)] in
  let s := sample_submission "q" (Response 200 (BodyJson (PyDict d))) in
  exists turn entry,
    messages (state (submit sample_session s)) = [user_turn "q" "12:00:00"; turn] /\
    execution_history (state (submit sample_session s)) = [entry] /\
    py_getitem turn "execution_order" = inr order /\
    py_getitem entry "agents" = inr order /\
    display_order turn
      = ([st_write (PyStr "**Agents will execute in this order:**");
          st_write (PyStr "1. A"); st_write (PyStr "2. B"); st_write (PyStr "3. C")],
         inr tt).
Proof.
  exact (execution_order_is_preserved sample_session
           (sample_submission "q"
              (Response 200 (BodyJson (PyDict
                 [("status", PyStr "complete");
                  ("execution_order", PyList [PyStr "A"; PyStr "B"; PyStr "C"])]))))
           _ ["A"; "B"; "C"] eq_refl eq_refl eq_refl ltac:(discriminate)).
Defined.

(** C8 at work: 0.999 * 100 is the float 7029837543348634 * 2^-46, just
    under 99.9, and 99 is its integer part. *)
Lemma confidence_percentage_is_truncated_witness :
  exists n,
    display_confidence (PyDict [("confidence", PyFloat 0.999)])
      = emit (st_metric "Confidence" (PyStr (py_str_int n ++ "%"))) /\
    0 <= n /\
    (0 <= -46 -> n = 7029837543348634 * 2 ^ (-46)) /\
    (-46 < 0 -> n * 2 ^ 46 <= 7029837543348634 < (n + 1) * 2 ^ 46).
Proof.
  exact (proj1 confidence_percentage_is_truncated
           [("confidence", PyFloat 0.999)] 0.999%float 7029837543348634%positive
           (-46) eq_refl eq_refl).
Defined.

(** C9 at work: the server's error text becomes the content. *)
Lemma assistant_content_is_error_or_default_witness :
  let d := [("status", PyStr "error"); ("error", PyStr "agent failed")] in
  let s := sample_submission "q" (Response 200 (BodyJson (PyDict d))) in
  exists turn,
    messages (state (submit sample_session s)) = [user_turn "q" "12:00:00"; turn] /\
    py_getitem turn "type" = assistant_type /\
    py_getitem turn "content" = inr (PyStr "agent failed") /\
    (forall e, lookup "error" d = Some (PyStr e) -> e <> "" ->
               py_getitem turn "content" = inr (PyStr e)) /\
    (lookup "error" d = None \/ lookup "error" d = Some (PyStr "") ->
     py_getitem turn "content" = inr (PyStr "Task completed successfully")).
Proof.
  exact (assistant_content_is_error_or_default sample_session
           (sample_submission "q"
              (Response 200 (BodyJson (PyDict
                 [("status", PyStr "error"); ("error", PyStr "agent failed")]))))
           _ eq_refl eq_refl ltac:(discriminate)).
Defined.

(** The scenario of a complete answer: two turns, the second one complete,
    with the order and the results of the response. *)
Example ping_scenario :
  let results := PyDict [("agentX", PyDict [("response", PyStr "pong")])] in
  let d := [("status", PyStr "complete");
            ("execution_order", PyList [PyStr "agentX"]);
            ("results", results)] in
  let s := sample_submission "ping" (Response 200 (BodyJson (PyDict d))) in
  let st := state (submit sample_session s) in
  turn_types (messages st) = [user_type; assistant_type] /\
  match messages st with
  | [_; turn] =>
      py_getitem turn "status" = inr (PyStr "complete") /\
      py_getitem turn "execution_order" = inr (PyList [PyStr "agentX"]) /\
      py_getitem turn "results" = inr results /\
      calls (display_message turn)
        = [st_markdown (PyStr "**Orchestrator** (12:00:01)");
           st_success "Status: Completed";
           st_markdown (PyStr "Task completed successfully");
           st_tabs ["Plan"; "Order"; "Results"; "Error"];
           st_write (PyStr "No task plan available");
           st_write (PyStr "**Agents will execute in this order:**");
           st_write (PyStr "1. agentX");
           st_subheader "Agent: agentX";
           st_success "Success";
           st_write (PyStr "**Response:**");
           st_markdown (PyStr "pong");
           st_divider;
           st_write (PyStr "No errors");
           st_divider]
  | _ => False
  end.
Proof. cbv zeta. vm_compute. repeat split; reflexivity. Qed.

(** X1 at work on the sample session. *)
Lemma transcript_is_a_dialogue_witness :
  let types := turn_types (messages (run_events sample_session sample_events)) in
  Forall (fun t => t = user_type \/ t = assistant_type) types /\
  (forall pre post,
     types = (pre ++ assistant_type :: post)%list ->
     exists pre', pre = (pre' ++ [user_type])%list).
Proof.
  exact (transcript_is_a_dialogue 1700000000.25 sample_session sample_events eq_refl).
Defined.

(** X3 at work on the sample session. *)
Lemma histories_bounded_by_answers_witness :
  let st := run_events sample_session sample_events in
  (List.length (task_plans st) <= List.length (execution_history st))%nat /\
  (List.length (filter is_assistant (messages st))
   <= List.length (execution_history st))%nat /\
  (existsb is_clear_history sample_events = false ->
   List.length (filter is_assistant (messages st))
   = List.length (execution_history st)).
Proof.
  exact (histories_bounded_by_answers 1700000000.25 sample_session sample_events
           eq_refl).
Defined.

(** X4 at work: the sample thread keeps its id. *)
Lemma thread_id_changes_only_on_new_thread_witness :
  thread_id (run_events sample_session sample_thread) = "thread_1700000000".
Proof.
  exact (thread_id_changes_only_on_new_thread sample_session sample_thread eq_refl).
Defined.

(** X5 at work on the sample session. *)
Lemma history_entries_carry_thread_id_witness :
  let st := run_events sample_session sample_events in
  Forall (fun entry => py_getitem entry "thread_id" = inr (PyStr (thread_id st)))
         (execution_history st).
Proof.
  exact (history_entries_carry_thread_id 1700000000.25 sample_session sample_events
           eq_refl).
Defined.

(** X7 at work: a body that is a list. *)
Lemma non_object_body_stops_the_handler_witness :
  submit sample_session
    (sample_submission "q" (Response 200 (BodyJson (PyList [PyStr "x"]))))
  = {| state := {| messages := [user_turn "q" "12:00:00"];
                   thread_id := "thread_1700000000";
                   task_plans := []; execution_history := [] |};
       output := []; ending := Raised AttributeError |}.
Proof.
  exact (non_object_body_stops_the_handler sample_session
           (sample_submission "q" (Response 200 (BodyJson (PyList [PyStr "x"]))))
           _ eq_refl eq_refl eq_refl ltac:(discriminate)).
Defined.

(** X9 at work: a complete answer. *)
Lemma status_banner_follows_response_witness :
  let d := [("status", PyStr "complete")] in
  let s := sample_submission "q" (Response 200 (BodyJson (PyDict d))) in
  exists turn,
    messages (state (submit sample_session s)) = [user_turn "q" "12:00:00"; turn] /\
    (display_status turn = emit (st_success "Status: Completed")
     <-> lookup "status" d = Some (PyStr "complete")) /\
    (display_status turn = emit (st_error "Status: Error")
     <-> lookup "status" d = Some (PyStr "error")) /\
    (lookup "status" d <> Some (PyStr "complete") ->
     lookup "status" d <> Some (PyStr "error") ->
     display_status turn = emit (st_info "Status: Processing")).
Proof.
  exact (status_banner_follows_response sample_session
           (sample_submission "q"
              (Response 200 (BodyJson (PyDict [("status", PyStr "complete")]))))
           _ eq_refl eq_refl ltac:(discriminate)).
Defined.

(** X10 at work: an answer with an error text only. *)
Lemma missing_fields_default_differently_witness :
  let d := [("error", PyStr "boom")] in
  let s := sample_submission "q" (Response 200 (BodyJson (PyDict d))) in
  exists turn entry,
    messages (state (submit sample_session s)) = [user_turn "q" "12:00:00"; turn] /\
    execution_history (state (submit sample_session s)) = [entry] /\
    (lookup "execution_order" d = None ->
     py_getitem turn "execution_order" = inr PyNone /\
     py_getitem entry "agents" = inr (PyList []) /\
     display_order turn = emit (st_write (PyStr "No execution order available"))) /\
    (lookup "status" d = None ->
     py_getitem turn "status" = inr (PyStr "pending") /\
     py_getitem entry "status" = inr PyNone).
Proof.
  exact (missing_fields_default_differently sample_session
           (sample_submission "q"
              (Response 200 (BodyJson (PyDict [("error", PyStr "boom")]))))
           _ eq_refl eq_refl ltac:(discriminate)).
Defined.

(** X11 at work: the first answer of a session gives a text as the result
    of agentX. *)
Lemma text_agent_result_stops_the_display_witness :
  display_messages
    (state (submit sample_session
              (sample_submission "ping"
                 (Response 200 (BodyJson (PyDict sample_text_result))))))
  = ([st_markdown (PyStr "**You** (12:00:00)"); st_markdown (PyStr "> ping");
      st_divider;
      st_markdown (PyStr "**Orchestrator** (12:00:01)");
      st_success "Status: Completed";
      st_markdown (PyStr "Task completed successfully");
      st_tabs ["Plan"; "Order"; "Results"; "Error"];
      st_write (PyStr "No task plan available");
      st_write (PyStr "No execution order available");
      st_subheader "Agent: agentX"],
     inl AttributeError).
Proof.
  exact (text_agent_result_stops_the_display sample_session
           (sample_submission "ping"
              (Response 200 (BodyJson (PyDict sample_text_result))))
           sample_text_result "agentX" (PyStr "pong") [] []
           eq_refl eq_refl eq_refl eq_refl eq_refl ltac:(discriminate) eq_refl).
Defined.

(** X12 at work: two failed calls. *)
Lemma user_turns_are_displayed_witness :
  display_messages
    (run_submissions sample_session
       [sample_submission "q" ConnectionError;
        sample_submission "r" (Response 503 (BodyInvalid "no body"))])
  = ([st_markdown (PyStr "**You** (12:00:00)"); st_markdown (PyStr "> q"); st_divider;
      st_markdown (PyStr "**You** (12:00:00)"); st_markdown (PyStr "> r"); st_divider],
     inr tt).
Proof.
  exact (user_turns_are_displayed
           (run_submissions sample_session
              [sample_submission "q" ConnectionError;
               sample_submission "r" (Response 503 (BodyInvalid "no body"))])
           [("q", "12:00:00"); ("r", "12:00:00")] eq_refl).
Defined.

(** X13 at work: the order "AB". *)
Lemma order_tab_on_non_lists_witness :
  display_order (PyDict [("execution_order", PyStr "AB")])
  = ([st_write (PyStr "**Agents will execute in this order:**");
      st_write (PyStr "1. A"); st_write (PyStr "2. B")], inr tt).
Proof.
  exact (proj1 (order_tab_on_non_lists [("execution_order", PyStr "AB")])
           "AB" eq_refl ltac:(discriminate)).
Defined.

(** X14 at work: a full plan, and a plan with none of the keys. *)
Lemma display_task_plan_lists_agents_witness :
  display_task_plan
    (PyDict [("agents", PyList [PyStr "A"; PyStr "B"]);
             ("confidence", PyFloat 0.73);
             ("uncertain", PyBool true);
             ("reasoning", PyStr "two steps")])
  = ([st_columns 3; st_metric "Agents" (PyInt 2);
      st_metric "Confidence" (PyStr "73%");
      st_metric "Status" (PyStr "Uncertain");
      st_write (PyStr "**Reasoning:**"); st_write (PyStr "two steps");
      st_write (PyStr "**Execution Order:**");
      st_write (PyStr "  1. A"); st_write (PyStr "  2. B")], inr tt) /\
  display_task_plan (PyDict [("note", PyStr "draft")])
  = ([st_columns 3; st_metric "Agents" (PyInt 0);
      st_metric "Confidence" (PyStr "0%");
      st_metric "Status" (PyStr "Confident");
      st_write (PyStr "**Reasoning:**"); st_write (PyStr "N/A");
      st_write (PyStr "**Execution Order:**")], inr tt).
Proof.
  split.
  - exact (display_task_plan_lists_agents
             [("agents", PyList [PyStr "A"; PyStr "B"]);
              ("confidence", PyFloat 0.73);
              ("uncertain", PyBool true);
              ("reasoning", PyStr "two steps")]
             ["A"; "B"]
             [st_metric "Confidence" (PyStr "73%")]
             ltac:(discriminate) eq_refl eq_refl).
  - exact (display_task_plan_lists_agents [("note", PyStr "draft")] []
             [st_metric "Confidence" (PyStr "0%")]
             ltac:(discriminate) eq_refl eq_refl).
Defined.

(** X15 at work: a plan with one agent and a null confidence. *)
Lemma null_confidence_stops_the_plan_witness :
  display_task_plan
    (PyDict [("agents", PyList [PyStr "A"]); ("confidence", PyNone)])
  = ([st_columns 3; st_metric "Agents" (PyInt 1)], inl TypeError).
Proof.
  exact (null_confidence_stops_the_plan
           [("agents", PyList [PyStr "A"]); ("confidence", PyNone)] 1
           eq_refl eq_refl).
Defined.

(** X18 at work: a thread of three submissions. *)
Lemma histories_follow_the_transcript_witness :
  histories_refer_to_transcript (run_events sample_session sample_uncleared_thread).
Proof.
  exact (histories_follow_the_transcript 1700000000.25 sample_session
           sample_uncleared_thread eq_refl eq_refl).
Defined.

(** X16 at work: an agent result that is a text. *)
Lemma display_agent_result_on_objects_witness :
  display_agent_result "agentX" (PyStr "pong")
  = ([st_subheader "Agent: agentX"], inl AttributeError).
Proof.
  exact (proj2 (display_agent_result_on_objects "agentX") (PyStr "pong")
           ltac:(discriminate)).
Defined.
